(** * yuque2xmind: the XMind to Markdown converter

    A shallow embedding of [src/script/convert_xmind_to_markdown.js]
    (functions [collectXmindFiles], [readXmindContent], [getNodeTitle],
    [nodeToMarkdown], [xmindToMarkdown], [convertXmindFile], the callbacks of
    the selection prompt and [processFile]), followed by the properties of
    the outline renderer, of the archive extractor, of the file collector
    and of the batch.

    Conventions of the embedding.
    - A JavaScript value that [JSON.parse] can return is a [value]; the
      absent property and the omitted argument are [JUndefined].
    - A thrown exception is the [Throw] case of [result]; [await] on a
      promise is sequencing in that monad (nothing else runs in between that
      touches the data of one conversion).
    - The engine's call stack is taken to be unbounded. *)

From Stdlib Require Import List String Ascii ZArith Lia Bool Arith.
From Stdlib Require Import DecimalString Permutation.
Import ListNotations.

Local Open Scope string_scope.
Local Open Scope Z_scope.

Set Warnings "-register-all".

(** ** Values *)

(** The values of the payload.  An object is the list of its own
    properties, looked up from the head.  A number is given by the two things
    the program observes of it: whether it is zero, and the text that
    [`${n}`] gives for it ("5", "1.5", "1e+21"). *)
Inductive value : Type :=
| JUndefined
| JNull
| JBool (b : bool)
| JNumber (zero : bool) (text : string)
| JString (s : string)
| JArray (items : list value)
| JObject (props : list (string * value)).

(** The exceptions the program can meet, with their messages. *)
Inductive exn : Type :=
| Error (message : string)
| SyntaxError (message : string)
| TypeError (message : string)
| RangeError (message : string).

Inductive result (A : Type) : Type :=
| Ok (a : A)
| Throw (e : exn).

Arguments Ok {A} a.
Arguments Throw {A} e.

Definition bind {A B : Type} (r : result A) (k : A -> result B) : result B :=
  match r with
  | Ok a => k a
  | Throw e => Throw e
  end.

Notation "x <- r ;; k" := (bind r (fun x => k))
  (at level 61, r at next level, right associativity).

(** The line feed character and the one-character string ["\n"]. *)
Definition LF : ascii := ascii_of_nat 10.
Definition nl : string := String LF EmptyString.

Module Js.

(** [!v] is [negb (truthy v)]. *)
Definition truthy (v : value) : bool :=
  match v with
  | JUndefined | JNull => false
  | JBool b => b
  | JNumber zero _ => negb zero
  | JString s => negb (String.eqb s "")
  | JArray _ | JObject _ => true
  end.

(** [a || b] when evaluating [b] cannot throw. *)
Definition or_else (a b : value) : value :=
  if truthy a then a else b.

(** [v === s] for a string literal [s]. *)
Definition strict_eq_string (v : value) (s : string) : bool :=
  match v with
  | JString t => String.eqb t s
  | _ => false
  end.

(** A parameter declared [p = d]: the default applies when the argument is
    omitted or [undefined]. *)
Definition default_arg (v d : value) : value :=
  match v with
  | JUndefined => d
  | _ => v
  end.

(** The property names the program reads.  None of them is an own or an
    inherited property of an array, a string, a number or a boolean, nor an
    inherited property of an object. *)
Inductive field : Type := title | children | attached | rootTopic.

Definition field_name (f : field) : string :=
  match f with
  | title => "title"
  | children => "children"
  | attached => "attached"
  | rootTopic => "rootTopic"
  end.

Fixpoint own_prop (props : list (string * value)) (name : string) : option value :=
  match props with
  | [] => None
  | (k, v) :: rest => if String.eqb k name then Some v else own_prop rest name
  end.

(** [v.f] *)
Definition get (v : value) (f : field) : result value :=
  match v with
  | JUndefined =>
      Throw (TypeError ("Cannot read properties of undefined (reading '" ++ field_name f ++ "')"))
  | JNull =>
      Throw (TypeError ("Cannot read properties of null (reading '" ++ field_name f ++ "')"))
  | JObject props =>
      match own_prop props (field_name f) with
      | Some x => Ok x
      | None => Ok JUndefined
      end
  | _ => Ok JUndefined
  end.

(** [v?.f] *)
Definition get_opt (v : value) (f : field) : result value :=
  match v with
  | JUndefined | JNull => Ok JUndefined
  | _ => get v f
  end.

(** [s.repeat(n)] for an integer [n]. *)
Definition repeat (s : string) (n : Z) : result string :=
  if n <? 0 then Throw (RangeError ("Invalid count value: " ++ NilZero.string_of_int (Z.to_int n)))
  else Ok (String.concat "" (List.repeat s (Z.to_nat n))).

(** The elements a string yields to [for ... of]: its code points.  The
    bytes of the string are its UTF-8 encoding, so a code point is a leading
    byte and the continuation bytes (10xxxxxx) that follow it. *)
Definition is_continuation (c : ascii) : bool :=
  let n := nat_of_ascii c in (128 <=? n)%nat && (n <? 192)%nat.

Fixpoint split_code_points (s : string) : string * list string :=
  match s with
  | EmptyString => (EmptyString, [])
  | String c rest =>
      let (pending, done) := split_code_points rest in
      if is_continuation c then (String c pending, done)
      else (EmptyString, String c pending :: done)
  end.

Definition code_points (s : string) : list string :=
  let (pending, done) := split_code_points s in
  match pending with
  | EmptyString => done
  | _ => pending :: done
  end.

(** The sequence [for (const x of v)] runs through. *)
Definition iterate (v : value) : result (list value) :=
  match v with
  | JArray items => Ok items
  | JString s => Ok (map JString (code_points s))
  | JUndefined => Throw (TypeError "undefined is not iterable")
  | JNull => Throw (TypeError "null is not iterable")
  | JBool _ | JNumber _ _ | JObject _ => Throw (TypeError "children is not iterable")
  end.

(** [for (const x of xs) { s = body(x, s) }] *)
Fixpoint for_of {A S : Type} (xs : list A) (body : A -> S -> result S) (s : S) : result S :=
  match xs with
  | [] => Ok s
  | x :: rest => s' <- body x s ;; for_of rest body s'
  end.

(** The text of a value inside a template literal, [`${v}`].  An array
    prints its elements joined by commas, [null] and [undefined] elements as
    nothing; an object prints as [[object Object]] unless an own property
    hides the inherited [toString], in which case the conversion fails. *)
Fixpoint to_string (v : value) : result string :=
  match v with
  | JUndefined => Ok "undefined"
  | JNull => Ok "null"
  | JBool true => Ok "true"
  | JBool false => Ok "false"
  | JNumber _ text => Ok text
  | JString s => Ok s
  | JArray items =>
      (fix join (xs : list value) : result string :=
         match xs with
         | [] => Ok ""
         | x :: rest =>
             sx <- match x with
                   | JUndefined | JNull => Ok ""
                   | _ => to_string x
                   end ;;
             match rest with
             | [] => Ok sx
             | _ => sr <- join rest ;; Ok (sx ++ "," ++ sr)
             end
         end) items
  | JObject props =>
      match own_prop props "toString" with
      | None => Ok "[object Object]"
      | Some _ => Throw (TypeError "Cannot convert object to primitive value")
      end
  end.

End Js.

(** ** The renderer *)

(** [getNodeTitle(node)], lines 70-76. *)
Definition getNodeTitle (node : value) : result string :=
  if negb (Js.truthy node) then Ok ""
  else
    t <- Js.get node Js.title ;;
    match t with
    | JString s => Ok s
    | _ => Ok ""
    end.

(** The body of [nodeToMarkdown(node, level, mode = "heading")], lines
    85-108, with the recursive call of line 104 as [self]. *)
Definition nodeToMarkdown_body (self : value -> Z -> value -> result string)
    (node : value) (level : Z) (mode : value) : result string :=
  let mode := Js.default_arg mode (JString "heading") in
  if negb (Js.truthy node) then Ok ""
  else
    title <- getNodeTitle node ;;
    let md := "" in
    md <- (if Js.strict_eq_string mode "heading" then
             let headingLevel := Z.min level 6 in
             hashes <- Js.repeat "#" headingLevel ;;
             Ok (md ++ hashes ++ " " ++ title ++ nl ++ nl)
           else
             indent <- Js.repeat "  " (Z.max 0 (level - 1)) ;;
             Ok (md ++ indent ++ "- " ++ title ++ nl)) ;;
    c <- Js.get node Js.children ;;
    a <- Js.get_opt c Js.attached ;;
    let children := Js.or_else a (JArray []) in
    items <- Js.iterate children ;;
    Js.for_of items
      (fun child md => r <- self child (level + 1) mode ;; Ok (md ++ r)) md.

(** The nesting depth of a value: every call of line 104 is on a value less
    deep than [node], which bounds the number of nested calls. *)
Fixpoint depth (v : value) : nat :=
  match v with
  | JArray items => S (list_max (map depth items))
  | JObject props => S (list_max (map (fun kv => match kv with (_, x) => depth x end) props))
  | _ => O
  end.

Fixpoint nodeToMarkdown_calls (calls : nat) : value -> Z -> value -> result string :=
  match calls with
  | O => fun _ _ _ => Throw (RangeError "Maximum call stack size exceeded")
  | S calls' => nodeToMarkdown_body (nodeToMarkdown_calls calls')
  end.

(** [nodeToMarkdown(node, level, mode)]; [nodeToMarkdown_unfold] below shows
    that it satisfies the recursive equation of the source.  Every call in
    the program passes [level], an integer, so its default is left out. *)
Definition nodeToMarkdown (node : value) (level : Z) (mode : value) : result string :=
  nodeToMarkdown_calls (S (depth node)) node level mode.

(** Lines 132-137: the title and the root topic of [sheet], appended to the
    text accumulated so far; [count] is [content.length]. *)
Definition sheetBlock (count : nat) (sheet rootTopic mode : value)
    (markdown : string) : result string :=
  t <- Js.get sheet Js.title ;;
  if Js.truthy t && (1 <? count)%nat then
    t' <- Js.get sheet Js.title ;;
    s <- Js.to_string t' ;;
    let markdown := markdown ++ "# " ++ s ++ nl ++ nl in
    r <- nodeToMarkdown rootTopic 2 mode ;;
    Ok (markdown ++ r)
  else
    r <- nodeToMarkdown rootTopic 1 mode ;;
    Ok (markdown ++ r).

(** One turn of the loop of lines 124-138, at index [i], on the text
    accumulated so far. *)
Definition sheetIteration (content : list value) (mode : value)
    (i : nat) (markdown : string) : result string :=
  let sheet := nth i content JUndefined in
  rootTopic <- Js.get sheet Js.rootTopic ;;
  let markdown :=
    if (0 <? i)%nat then markdown ++ nl ++ "---" ++ nl ++ nl else markdown in
  sheetBlock (List.length content) sheet rootTopic mode markdown.

(** [xmindToMarkdown(content, mode = "heading")], lines 116-141. *)
Definition xmindToMarkdown (content mode : value) : result string :=
  let mode := Js.default_arg mode (JString "heading") in
  match content with
  | JArray sheets =>
      if (List.length sheets =? 0)%nat then Throw (Error "无效的 XMind 内容格式")
      else Js.for_of (seq 0 (List.length sheets)) (sheetIteration sheets mode) ""
  | _ => Throw (Error "无效的 XMind 内容格式")
  end.

(** ** The extractor *)

Section Extractor.

(** The file system, the zip library and the JSON parser are outside the
    program: [readFileSync path], [JSZip.loadAsync data], [zip.file name]
    (no entry is [null]), [entry.async("string")] and [JSON.parse text]. *)
Variables (buffer archive entry : Type).
Variable readFileSync : string -> result buffer.
Variable loadAsync : buffer -> result archive.
Variable file : archive -> string -> option entry.
Variable async_string : entry -> result string.
Variable JSON_parse : string -> result value.

(** [readXmindContent(xmindPath)], lines 54-63. *)
Definition readXmindContent (xmindPath : string) : result value :=
  data <- readFileSync xmindPath ;;
  zip <- loadAsync data ;;
  match file zip "content.json" with
  | None => Throw (Error "XMind 文件中未找到 content.json")
  | Some contentFile =>
      contentJson <- async_string contentFile ;;
      JSON_parse contentJson
  end.

End Extractor.

Arguments readXmindContent {buffer archive entry}.

(** ** The vocabulary of the specification *)

(** The two rendering modes a caller can name. *)
Inductive Mode : Type := Heading | Bullets.

Definition mode_value (m : Mode) : value :=
  match m with
  | Heading => JString "heading"
  | Bullets => JString "list"
  end.

(** The values that are neither omitted nor the string "heading". *)
Definition other_mode (mode : value) : Prop :=
  mode <> JUndefined /\ mode <> JString "heading".

(** The child sequence of a node: the array under [children.attached]. *)
Definition subtopics (node : value) : list value :=
  match node with
  | JObject props =>
      match Js.own_prop props "children" with
      | Some (JObject cprops) =>
          match Js.own_prop cprops "attached" with
          | Some (JArray items) => items
          | _ => []
          end
      | _ => []
      end
  | _ => []
  end.

(** The [children] property of a Topic is absent, or an object whose
    [attached] property is absent or an array. *)
Definition children_shape (props : list (string * value)) : bool :=
  match Js.own_prop props "children" with
  | None => true
  | Some (JObject cprops) =>
      match Js.own_prop cprops "attached" with
      | None | Some (JArray _) => true
      | _ => false
      end
  | _ => false
  end.

(** A Topic: an object of that shape whose children are Topics.  Its title
    is unconstrained. *)
Inductive Topic : value -> Prop :=
| Topic_node (props : list (string * value)) :
    children_shape props = true ->
    Forall Topic (subtopics (JObject props)) ->
    Topic (JObject props).

(** The title text of a node: its [title] when that is a string. *)
Definition titleText (node : value) : string :=
  match node with
  | JObject props =>
      match Js.own_prop props "title" with
      | Some (JString s) => s
      | _ => ""
      end
  | _ => ""
  end.

(** The lines of the Markdown output format. *)
Definition headingLine (level : Z) (t : string) : string :=
  String.concat "" (List.repeat "#" (Z.to_nat (Z.min level 6))) ++ " " ++ t ++ nl ++ nl.

Definition listLine (level : Z) (t : string) : string :=
  String.concat "" (List.repeat "  " (Z.to_nat (level - 1))) ++ "- " ++ t ++ nl.

Definition topicLine (m : Mode) (level : Z) (t : string) : string :=
  match m with
  | Heading => headingLine level t
  | Bullets => listLine level t
  end.

Definition separator : string := nl ++ "---" ++ nl ++ nl.

(** The root topic and the title of a sheet object; an absent root is
    [JUndefined], an absent title is the empty text. *)
Definition sheetRoot (sheet : value) : value :=
  match sheet with
  | JObject props =>
      match Js.own_prop props "rootTopic" with
      | Some r => r
      | None => JUndefined
      end
  | _ => JUndefined
  end.

(** The shape of the title of a Sheet: absent or a string. *)
Definition title_shape (props : list (string * value)) : Prop :=
  Js.own_prop props "title" = None \/
  exists t, Js.own_prop props "title" = Some (JString t).

(** A Sheet: an object whose title is absent or a string and whose root
    topic is absent or a Topic. *)
Inductive Sheet : value -> Prop :=
| Sheet_object (props : list (string * value)) :
    title_shape props ->
    (Js.own_prop props "rootTopic" = None \/
     exists r, Js.own_prop props "rootTopic" = Some r /\ Topic r) ->
    Sheet (JObject props).

(** A Document: a non-empty array of Sheets. *)
Definition Document (content : value) : Prop :=
  exists sheets, content = JArray sheets /\ sheets <> [] /\ Forall Sheet sheets.

(** The text one sheet contributes after its separator: line 126 and lines
    132-137 on an empty accumulator. *)
Definition sheetSection (count : nat) (sheet mode : value) : result string :=
  rootTopic <- Js.get sheet Js.rootTopic ;;
  sheetBlock count sheet rootTopic mode "".

(** [f] on every element in order, stopping at the first exception. *)
Fixpoint traverse {A B : Type} (f : A -> result B) (xs : list A) : result (list B) :=
  match xs with
  | [] => Ok []
  | x :: rest => y <- f x ;; ys <- traverse f rest ;; Ok (y :: ys)
  end.

(** The three kinds of failure of the specification, as the program raises
    them. *)
Definition MissingPayload : exn := Error "XMind 文件中未找到 content.json".
Definition MalformedPayload (diagnostic : string) : exn := SyntaxError diagnostic.
Definition InvalidFormat : exn := Error "无效的 XMind 内容格式".

(** The elements the loop of line 103 runs through (line 102 and the
    iteration of its value). *)
Definition nodeChildren (node : value) : result (list value) :=
  c <- Js.get node Js.children ;;
  a <- Js.get_opt c Js.attached ;;
  Js.iterate (Js.or_else a (JArray [])).

(** The documents of the examples of the specification. *)
Definition planRoot : value :=
  JObject [("title", JString "Root");
    ("children", JObject [("attached",
        JArray [JObject [("title", JString "A")]; JObject [("title", JString "B")]])])].

Definition plan : value :=
  JArray [JObject [("title", JString "Plan"); ("rootTopic", planRoot)]].


(** Builds the proof that a concrete value is a Topic. *)
Ltac topic_shape :=
  repeat first
    [ apply Topic_node; [reflexivity | cbn [subtopics Js.own_prop String.eqb Ascii.eqb Bool.eqb]]
    | apply Forall_cons
    | apply Forall_nil ].

(** A file system, a zip library and a parser for the examples: every path
    holds an archive whose only entry is meta.json. *)
Definition sampleArchive : list (string * string) := [("meta.json", "{}")].

Definition sampleRead (path : string) : result unit := Ok tt.

Definition sampleLoad (data : unit) : result (list (string * string)) :=
  Ok sampleArchive.

Definition sampleFile (zip : list (string * string)) (name : string) : option string :=
  match find (fun kv => String.eqb (fst kv) name) zip with
  | Some kv => Some (snd kv)
  | None => None
  end.

Definition sampleText (text : string) : result string := Ok text.

Definition sampleParse (text : string) : result value :=
  if String.eqb text "{}" then Ok (JObject [])
  else Throw (SyntaxError "Unexpected token").

(** ** The file collector *)

(** What [fs.statSync] and [fs.readdirSync] report of the entry found at a
    path: a regular file, a directory with its listing in the order
    [readdirSync] gives it, a directory whose listing fails, an entry that is
    neither a file nor a directory, or an entry whose [statSync] fails (a
    dangling link, a path the system refuses to resolve). *)
Inductive fsnode : Type :=
| RegularFile
| Directory (entries : list (string * fsnode))
| Unlistable (e : exn)
| OtherKind
| NoStat (e : exn).

Section Collector.

(** [path.join(...)] and [path.extname(name)] of the Node library. *)
Variable path_join : list string -> string.
Variable path_extname : string -> string.

(** [collectXmindFiles(dir, files = [])], lines 35-47, where [here] is the
    entry at [dir].  [files.push] on the shared array is the list threaded
    through the calls.  Listing an entry that is not a directory fails, as
    [readdirSync] does. *)
Fixpoint collectXmindFiles (dir : string) (here : fsnode) (files : list string)
    {struct here} : result (list string) :=
  match here with
  | Directory items =>
      (fix loop (items : list (string * fsnode)) (files : list string)
         : result (list string) :=
         match items with
         | [] => Ok files
         | (item, stat) :: rest =>
             let fullPath := path_join [dir; item] in
             match stat with
             | NoStat e => Throw e
             | Directory _ | Unlistable _ =>
                 files <- collectXmindFiles fullPath stat files ;;
                 loop rest files
             | RegularFile =>
                 if String.eqb (path_extname item) ".xmind"
                 then loop rest (files ++ [fullPath])%list
                 else loop rest files
             | OtherKind => loop rest files
             end
         end) items files
  | Unlistable e | NoStat e => Throw e
  | RegularFile | OtherKind =>
      Throw (Error ("ENOTDIR: not a directory, scandir '" ++ dir ++ "'"))
  end.

(** The path [p] is a regular file with the extension [.xmind], at any depth
    below the directory [here] whose path is [dir]. *)
Inductive located : string -> fsnode -> string -> Prop :=
| located_here (dir : string) (entries : list (string * fsnode)) (item : string) :
    In (item, RegularFile) entries ->
    path_extname item = ".xmind" ->
    located dir (Directory entries) (path_join [dir; item])
| located_below (dir : string) (entries : list (string * fsnode)) (item : string)
    (sub : fsnode) (p : string) :
    In (item, sub) entries ->
    located (path_join [dir; item]) sub p ->
    located dir (Directory entries) p.

End Collector.

(** Every [statSync] and every [readdirSync] below the entry succeeds. *)
Fixpoint statable (here : fsnode) : bool :=
  match here with
  | RegularFile | OtherKind => true
  | Directory entries =>
      forallb (fun kv => match kv with (_, sub) => statable sub end) entries
  | Unlistable _ | NoStat _ => false
  end.

(** ** The selection of files *)

(** A choice of the checkbox prompt, lines 192-199; the first choice has no
    [checked] property. *)
Record choice : Type := {
  choice_name : string;
  choice_value : string;
  choice_checked : option bool
}.

Section Selection.

(** [path.relative(from, to)] of the Node library. *)
Variable path_relative : string -> string -> string.

(** [choices], lines 192-199. *)
Definition choices (rootDir : string) (xmindFiles : list string) : list choice :=
  {| choice_name := "全选"; choice_value := "all"; choice_checked := None |}
  :: map (fun file =>
            {| choice_name := path_relative rootDir file;
               choice_value := file;
               choice_checked := Some false |}) xmindFiles.

End Selection.

(** [validate(answer)] of the checkbox prompt, lines 209-214: a message, or
    [true]. *)
Definition validateSelection (answer : list string) : value :=
  if (List.length answer <? 1)%nat then JString "你必须至少选择一个文件。"
  else JBool true.

(** [filter(answer)] of the checkbox prompt, lines 215-220. *)
Definition filterSelection (choices : list choice) (answer : list string) : list string :=
  if existsb (fun x => String.eqb x "all") answer
  then map choice_value choices
  else answer.

(** [selectedFiles], lines 234-236. *)
Definition selectedFiles (answers_selectedFiles : list string) : list string :=
  filter (fun file => negb (String.eqb file "all")) answers_selectedFiles.

(** ** Writing the result *)

(** The calls that change the file system, with their arguments:
    [fs.mkdirSync(dir, { recursive })] and
    [fs.writeFileSync(path, text, "utf-8")]. *)
Inductive fs_call : Type :=
| MkdirSync (dir : string) (recursive : bool)
| WriteFileSync (path text : string).

(** A computation that calls the file system: the calls it has made, in
    order, and its outcome.  A call that throws has been made. *)
Definition io (A : Type) : Type := (list fs_call * result A)%type.

Definition io_ret {A : Type} (a : A) : io A := ([], Ok a).

Definition io_bind {A B : Type} (m : io A) (k : A -> io B) : io B :=
  match m with
  | (made, Ok a) => let (more, r) := k a in ((made ++ more)%list, r)
  | (made, Throw e) => (made, Throw e)
  end.

(** A computation that makes no such call. *)
Definition io_lift {A : Type} (r : result A) : io A := ([], r).

Notation "x <~ m ;; k" := (io_bind m (fun x => k))
  (at level 61, m at next level, right associativity).

Section Conversion.

Variables (buffer archive entry : Type).
Variable readFileSync : string -> result buffer.
Variable loadAsync : buffer -> result archive.
Variable file : archive -> string -> option entry.
Variable async_string : entry -> result string.
Variable JSON_parse : string -> result value.

(** [path.dirname(path)], what [fs.existsSync(path)] answers, and whether
    the call of [fs.mkdirSync] and of [fs.writeFileSync] that a conversion
    makes returns or throws. *)
Variable path_dirname : string -> string.
Variable existsSync : string -> bool.
Variable mkdir_outcome : string -> bool -> result unit.
Variable write_outcome : string -> string -> result unit.

Definition mkdirSync (dir : string) (recursive : bool) : io unit :=
  ([MkdirSync dir recursive], mkdir_outcome dir recursive).

Definition writeFileSync (path text : string) : io unit :=
  ([WriteFileSync path text], write_outcome path text).

(** [convertXmindFile(xmindPath, outputPath, mode = "heading")], lines
    149-160. *)
Definition convertXmindFile (xmindPath outputPath : string) (mode : value) : io unit :=
  let mode := Js.default_arg mode (JString "heading") in
  content <~ io_lift (readXmindContent readFileSync loadAsync file async_string
                        JSON_parse xmindPath) ;;
  markdown <~ io_lift (xmindToMarkdown content mode) ;;
  let outputDir := path_dirname outputPath in
  _ <~ (if negb (existsSync outputDir)
        then mkdirSync outputDir true
        else io_ret tt) ;;
  writeFileSync outputPath markdown.

End Conversion.

Arguments convertXmindFile {buffer archive entry}.

(** ** Processing the selected files *)

(** [error.message] *)
Definition message_of (e : exn) : string :=
  match e with
  | Error m | SyntaxError m | TypeError m | RangeError m => m
  end.

(** [n.toString()] for an integer [n]. *)
Definition number_toString (n : Z) : string :=
  NilZero.string_of_int (Z.to_int n).

(** [row[i] = x] for an index within the row. *)
Fixpoint set_index (i : nat) (x : string) (row : list string) : list string :=
  match row, i with
  | [], _ => []
  | _ :: rest, O => x :: rest
  | y :: rest, S i' => y :: set_index i' x rest
  end.

(** What the tasks share: the rows of [table], [errorMsgList], and the value
    of [totalProgressBar]. *)
Record report : Type := {
  table : list (list string);
  errorMsgList : list string;
  progress : nat
}.

Section Batch.

(** [path.basename(path, ext)], [path.join(...)] and [__dirname]. *)
Variable path_basename : string -> string -> string.
Variable path_join : list string -> string.
Variable dirname__ : string.

(** What one run observes for a file: the size [fs.statSync] reports, the
    outcome of awaiting [convertXmindFile], and the two readings of
    [Date.now()]. *)
Variable statSize : string -> result Z.
Variable convert : string -> string -> value -> result unit.
Variable startTime : string -> Z.
Variable endTime : string -> Z.

(** [processFile(file)], lines 265-296, as the change it makes to what the
    tasks share.  All of its writes to the table, to the list of messages
    and to the progress bar come after its last [await], in one turn of the
    event loop. *)
Definition processFile (mode : value) (file : string) (shared : report) : report :=
  let fileName := path_basename file ".xmind" in
  let saveDir := path_join [dirname__; ".."; "result"; "markdown"; fileName ++ ".md"] in
  let rowData := [fileName; "-"; "-"; saveDir; "处理中"] in
  let startTime := startTime file in
  match (fileSize <- statSize file ;;
         _ <- convert file saveDir mode ;;
         Ok fileSize) with
  | Ok fileSize =>
      let endTime := endTime file in
      let elapsedTime := endTime - startTime in
      let rowData := set_index 4 "已完成" rowData in
      let rowData := set_index 2 (number_toString elapsedTime) rowData in
      let rowData := set_index 1 (number_toString fileSize) rowData in
      {| table := (table shared ++ [rowData])%list;
         errorMsgList := errorMsgList shared;
         progress := S (progress shared) |}
  | Throw error =>
      let msg := "处理文件 " ++ file ++ " 时发生错误: " ++ message_of error in
      let rowData := set_index 4 "失败" rowData in
      {| table := (table shared ++ [rowData])%list;
         errorMsgList := (errorMsgList shared ++ [msg])%list;
         progress := S (progress shared) |}
  end.

(** The tasks of lines 299-304, finishing in the order [finished]. *)
Definition processAll (mode : value) (finished : list string) (shared : report) : report :=
  fold_left (fun shared file => processFile mode file shared) finished shared.

(** The file is processed without an exception. *)
Definition succeeds (mode : value) (file : string) : bool :=
  match statSize file with
  | Throw _ => false
  | Ok _ =>
      match convert file
              (path_join [dirname__; ".."; "result"; "markdown";
                          path_basename file ".xmind" ++ ".md"]) mode with
      | Ok _ => true
      | Throw _ => false
      end
  end.

End Batch.

(** The state shared by the tasks before any of them has finished. *)
Definition emptyReport : report :=
  {| table := []; errorMsgList := []; progress := O |}.

(** A directory, a path function and an extension function for the
    examples: paths are joined with "/", and the extension of a name is its
    suffix from the last dot. *)
Definition sampleJoin (parts : list string) : string := String.concat "/" parts.

Fixpoint sampleExtname (name : string) : string :=
  match name with
  | EmptyString => ""
  | String c rest =>
      match sampleExtname rest with
      | EmptyString => if Ascii.eqb c "." then name else ""
      | ext => ext
      end
  end.

Definition sampleTree : fsnode :=
  Directory [("a.xmind", RegularFile);
             ("notes.txt", RegularFile);
             ("sub", Directory [("b.xmind", RegularFile);
                                ("c.xmind", Directory [])]);
             ("pipe", OtherKind)].

(** An archive whose content.json holds the document of the examples, and
    a parser that knows that one text. *)
Definition planLoad (data : unit) : result (list (string * string)) :=
  Ok [("content.json", "[plan]")].

Definition planParse (text : string) : result value :=
  if String.eqb text "[plan]" then Ok plan
  else Throw (SyntaxError "Unexpected token").

(** The directory of a path of the examples: what precedes its last "/". *)
Fixpoint sampleDirname (path : string) : string :=
  match path with
  | EmptyString => ""
  | String c rest =>
      if existsb (Ascii.eqb "/") (list_ascii_of_string rest)
      then String c (sampleDirname rest)
      else ""
  end.

(** The exception is a [TypeError]. *)
Definition is_TypeError (e : exn) : Prop := exists m, e = TypeError m.

(** A node with the title [t] and the children [items]. *)
Definition topicOf (t : value) (items : list value) : value :=
  JObject [("title", t); ("children", JObject [("attached", JArray items)])].

Example plan_list :
  xmindToMarkdown plan (JString "list")
  = Ok ("- Root" ++ nl ++ "  - A" ++ nl ++ "  - B" ++ nl).
Proof. vm_compute. reflexivity. Qed.

Example plan_heading :
  xmindToMarkdown plan (JString "heading")
  = Ok ("# Root" ++ nl ++ nl ++ "## A" ++ nl ++ nl ++ "## B" ++ nl ++ nl).
Proof. vm_compute. reflexivity. Qed.

(** Two sheets: each title is a level-1 heading, the roots start at level
    2, and a rule separates the sheets. *)
Example two_sheets :
  xmindToMarkdown
    (JArray [JObject [("title", JString "One"); ("rootTopic", planRoot)];
             JObject [("title", JString "Two");
                      ("rootTopic", JObject [("title", JString "Solo")])]])
    JUndefined
  = Ok ("# One" ++ nl ++ nl ++ "## Root" ++ nl ++ nl ++ "### A" ++ nl ++ nl
        ++ "### B" ++ nl ++ nl
        ++ nl ++ "---" ++ nl ++ nl
        ++ "# Two" ++ nl ++ nl ++ "## Solo" ++ nl ++ nl).
Proof. vm_compute. reflexivity. Qed.

(** Values outside the data model: a number under [attached] is not
    iterable, a string is iterated by code points, and a title that is not a
    string is dropped. *)
Example attached_number :
  nodeToMarkdown
    (JObject [("title", JString "T"); ("children", JObject [("attached", JNumber false "5")])])
    1 (JString "list")
  = Throw (TypeError "children is not iterable").
Proof. reflexivity. Qed.

Example attached_string :
  nodeToMarkdown
    (JObject [("title", JNumber false "7"); ("children", JObject [("attached", JString "a中")])])
    1 (JString "list")
  = Ok ("- " ++ nl ++ "  - " ++ nl ++ "  - " ++ nl).
Proof. vm_compute. reflexivity. Qed.

(** ** Strings and the exception monad *)

Lemma append_assoc (a b c : string) : (a ++ b) ++ c = a ++ b ++ c.
Proof. induction a as [|x a IH]; simpl; [reflexivity | now rewrite IH]. Qed.

Lemma append_empty_r (a : string) : a ++ "" = a.
Proof. induction a as [|x a IH]; simpl; [reflexivity | now rewrite IH]. Qed.

Lemma concat_empty_cons (x : string) (xs : list string) :
  String.concat "" (x :: xs) = x ++ String.concat "" xs.
Proof.
  destruct xs as [|y ys]; simpl; [now rewrite append_empty_r | reflexivity].
Qed.

Lemma bind_Ok {A B : Type} (r : result A) (k : A -> result B) (b : B) :
  bind r k = Ok b -> exists a, r = Ok a /\ k a = Ok b.
Proof. destruct r as [a|e]; simpl; [eauto | discriminate]. Qed.

Lemma bind_assoc {A B C : Type} (r : result A) (k : A -> result B) (h : B -> result C) :
  bind (bind r k) h = bind r (fun a => bind (k a) h).
Proof. now destruct r. Qed.

Lemma bind_ext {A B : Type} (r : result A) (k h : A -> result B) :
  (forall a, r = Ok a -> k a = h a) -> bind r k = bind r h.
Proof. destruct r as [a|e]; simpl; auto. Qed.

Lemma for_of_ext {A S : Type} (P : A -> Prop) (xs : list A)
    (f g : A -> S -> result S) :
  Forall P xs -> (forall x s, P x -> f x s = g x s) ->
  forall s, Js.for_of xs f s = Js.for_of xs g s.
Proof.
  intros HP Hfg. induction HP as [|x xs Hx _ IH]; intros s; simpl.
  - reflexivity.
  - rewrite (Hfg x s Hx). apply bind_ext. intros s' _. apply IH.
Qed.

(** A loop that appends one text per element yields the accumulator followed
    by the texts in order. *)
Lemma for_of_append {A : Type} (f : A -> result string) (xs : list A) (acc : string) :
  Js.for_of xs (fun x md => r <- f x ;; Ok (md ++ r)) acc
  = rs <- traverse f xs ;; Ok (acc ++ String.concat "" rs).
Proof.
  revert acc. induction xs as [|x xs IH]; intros acc; cbn [Js.for_of traverse bind].
  - simpl. now rewrite append_empty_r.
  - destruct (f x) as [r|e]; cbn [bind]; [|reflexivity].
    rewrite IH. destruct (traverse f xs) as [rs|e]; cbn [bind]; [|reflexivity].
    now rewrite concat_empty_cons, append_assoc.
Qed.

Lemma traverse_Forall2 {A B : Type} (f : A -> result B) (xs : list A) (ys : list B) :
  traverse f xs = Ok ys <-> Forall2 (fun x y => f x = Ok y) xs ys.
Proof.
  revert ys. induction xs as [|x xs IH]; intros ys; simpl.
  - split.
    + intros H. injection H as <-. constructor.
    + intros H. inversion H. reflexivity.
  - split.
    + intros H. apply bind_Ok in H as (y & Hy & H).
      apply bind_Ok in H as (ys' & Hys & H). injection H as <-.
      constructor; [exact Hy | now apply IH].
    + intros H. inversion H as [|? y ? ys' Hy Hys]; subst.
      rewrite Hy. simpl. apply IH in Hys. rewrite Hys. reflexivity.
Qed.

(** ** The recursion of [nodeToMarkdown] *)

Lemma own_prop_depth (props : list (string * value)) (name : string) (v : value) :
  Js.own_prop props name = Some v -> (depth v < depth (JObject props))%nat.
Proof.
  intros H. simpl. apply Nat.lt_succ_r.
  induction props as [|[k x] props IH]; simpl in *; [discriminate|].
  destruct (String.eqb k name).
  - injection H as ->. apply Nat.le_max_l.
  - etransitivity; [apply IH, H | apply Nat.le_max_r].
Qed.

Lemma item_depth (items : list value) (v : value) :
  In v items -> (depth v < depth (JArray items))%nat.
Proof.
  intros H. simpl. apply Nat.lt_succ_r.
  induction items as [|x items IH]; simpl in *; [contradiction|].
  destruct H as [->|H].
  - apply Nat.le_max_l.
  - etransitivity; [apply IH, H | apply Nat.le_max_r].
Qed.

Lemma get_depth (v : value) (f : Js.field) (x : value) :
  Js.get v f = Ok x -> (depth x <= depth v)%nat.
Proof.
  destruct v; simpl; try discriminate;
    try (intros H; injection H as <-; simpl; lia).
  destruct (Js.own_prop props (Js.field_name f)) eqn:E; intros H; injection H as <-.
  - apply own_prop_depth in E. simpl in *. lia.
  - simpl. lia.
Qed.

Lemma get_opt_depth (v : value) (f : Js.field) (x : value) :
  Js.get_opt v f = Ok x -> (depth x <= depth v)%nat.
Proof.
  destruct v; simpl; try (intros H; injection H as <-; simpl; lia).
  apply (get_depth (JObject props)).
Qed.

Lemma get_object_depth (props : list (string * value)) (f : Js.field) (x : value) :
  Js.get (JObject props) f = Ok x -> x = JUndefined \/ (depth x < depth (JObject props))%nat.
Proof.
  simpl. destruct (Js.own_prop props (Js.field_name f)) eqn:E; intros H; injection H as <-.
  - right. now apply own_prop_depth in E.
  - now left.
Qed.

Lemma iterate_depth (v : value) (bound : nat) (cs : list value) :
  Js.iterate v = Ok cs -> (depth v < bound)%nat ->
  Forall (fun c => (depth c < bound)%nat) cs.
Proof.
  destruct v; simpl; try discriminate; intros H Hb; injection H as <-.
  - apply Forall_forall. intros c Hc. apply in_map_iff in Hc as (x & <- & _).
    simpl. lia.
  - apply Forall_forall. intros c Hc. apply item_depth in Hc. simpl in Hc. lia.
Qed.

(** Every element of the loop is less deep than the node. *)
Lemma nodeChildren_depth (node : value) (cs : list value) :
  nodeChildren node = Ok cs -> Forall (fun c => (depth c < depth node)%nat) cs.
Proof.
  unfold nodeChildren. intros H.
  apply bind_Ok in H as (c & Hc & H). apply bind_Ok in H as (a & Ha & H).
  assert (Hempty : a = JUndefined -> cs = []).
  { intros ->. simpl in H. now injection H as <-. }
  destruct node;
    try (simpl in Hc; discriminate);
    try (simpl in Hc; injection Hc as <-; simpl in Ha; injection Ha as <-;
         rewrite Hempty by reflexivity; constructor).
  destruct (get_object_depth _ _ _ Hc) as [->|Hlt].
  - simpl in Ha. injection Ha as <-. rewrite Hempty by reflexivity. constructor.
  - apply get_opt_depth in Ha. unfold Js.or_else in H.
    destruct (Js.truthy a).
    + eapply iterate_depth; [exact H | lia].
    + simpl in H. injection H as <-. constructor.
Qed.

Lemma nodeToMarkdown_body_children self node level mode :
  nodeToMarkdown_body self node level mode =
  let mode := Js.default_arg mode (JString "heading") in
  if negb (Js.truthy node) then Ok ""
  else
    title <- getNodeTitle node ;;
    md <- (if Js.strict_eq_string mode "heading" then
             hashes <- Js.repeat "#" (Z.min level 6) ;;
             Ok ("" ++ hashes ++ " " ++ title ++ nl ++ nl)
           else
             indent <- Js.repeat "  " (Z.max 0 (level - 1)) ;;
             Ok ("" ++ indent ++ "- " ++ title ++ nl)) ;;
    items <- nodeChildren node ;;
    Js.for_of items
      (fun child md => r <- self child (level + 1) mode ;; Ok (md ++ r)) md.
Proof.
  unfold nodeToMarkdown_body, nodeChildren. cbv zeta.
  destruct (negb (Js.truthy node)); [reflexivity|].
  apply bind_ext. intros title _. apply bind_ext. intros md _.
  rewrite bind_assoc. apply bind_ext. intros c _.
  rewrite bind_assoc. reflexivity.
Qed.

(** The body only consults [self] on values less deep than the node. *)
Lemma nodeToMarkdown_body_ext self1 self2 node level mode :
  (forall c l m, (depth c < depth node)%nat -> self1 c l m = self2 c l m) ->
  nodeToMarkdown_body self1 node level mode = nodeToMarkdown_body self2 node level mode.
Proof.
  intros Hself. rewrite !nodeToMarkdown_body_children. cbv zeta.
  destruct (negb (Js.truthy node)); [reflexivity|].
  apply bind_ext. intros title _. apply bind_ext. intros md _.
  apply bind_ext. intros items Hitems.
  apply for_of_ext with (P := fun c => (depth c < depth node)%nat).
  - now apply nodeChildren_depth.
  - intros c s Hc. now rewrite Hself.
Qed.

(** Any number of nested calls above the depth of the node gives the same
    result. *)
Lemma nodeToMarkdown_calls_stable (n1 n2 : nat) node level mode :
  (depth node < n1)%nat -> (depth node < n2)%nat ->
  nodeToMarkdown_calls n1 node level mode = nodeToMarkdown_calls n2 node level mode.
Proof.
  revert n2 node level mode.
  induction n1 as [|n1 IH]; intros n2 node level mode H1 H2; [lia|].
  destruct n2 as [|n2]; [lia|]. simpl.
  apply nodeToMarkdown_body_ext. intros c l m Hc. apply IH; lia.
Qed.

(** [nodeToMarkdown] satisfies the recursive equation of lines 85-108. *)
Lemma nodeToMarkdown_unfold node level mode :
  nodeToMarkdown node level mode = nodeToMarkdown_body nodeToMarkdown node level mode.
Proof.
  unfold nodeToMarkdown at 1. simpl.
  apply nodeToMarkdown_body_ext. intros c l m Hc.
  unfold nodeToMarkdown. apply nodeToMarkdown_calls_stable; lia.
Qed.

(** Induction on a Topic, with the property for its children. *)
Lemma Topic_induction (P : value -> Prop) :
  (forall props,
     children_shape props = true ->
     Forall Topic (subtopics (JObject props)) ->
     Forall P (subtopics (JObject props)) ->
     P (JObject props)) ->
  forall node, Topic node -> P node.
Proof.
  intros step. fix IH 2. intros node [props Hshape Hsub].
  apply step; [exact Hshape | exact Hsub |].
  induction Hsub as [|c cs Hc _ IHcs]; constructor; [apply IH, Hc | exact IHcs].
Qed.

(** The loop of a Topic runs through its child sequence. *)
Lemma Topic_children (props : list (string * value)) :
  children_shape props = true ->
  nodeChildren (JObject props) = Ok (subtopics (JObject props)).
Proof.
  unfold children_shape, nodeChildren, subtopics. simpl.
  destruct (Js.own_prop props "children") as [c|]; [|reflexivity].
  destruct c; try discriminate. simpl.
  destruct (Js.own_prop props0 "attached") as [a|]; [|reflexivity].
  destruct a; try discriminate. reflexivity.
Qed.

(** ** Rendering a node *)

Lemma getNodeTitle_object (props : list (string * value)) :
  getNodeTitle (JObject props) = Ok (titleText (JObject props)).
Proof.
  unfold getNodeTitle, titleText. simpl.
  destruct (Js.own_prop props "title") as [t|]; [|reflexivity].
  now destruct t.
Qed.

Lemma repeat_heading (level : Z) :
  1 <= level ->
  Js.repeat "#" (Z.min level 6)
  = Ok (String.concat "" (List.repeat "#" (Z.to_nat (Z.min level 6)))).
Proof.
  intros H. unfold Js.repeat.
  destruct (Z.ltb_spec (Z.min level 6) 0) as [Hneg|_]; [lia | reflexivity].
Qed.

Lemma repeat_indent (level : Z) :
  1 <= level ->
  Js.repeat "  " (Z.max 0 (level - 1))
  = Ok (String.concat "" (List.repeat "  " (Z.to_nat (level - 1)))).
Proof.
  intros H. unfold Js.repeat. rewrite Z.max_r by lia.
  destruct (Z.ltb_spec (level - 1) 0) as [Hneg|_]; [lia | reflexivity].
Qed.

(** The equation of lines 85-108 on an object whose [children] have the
    shape of a Topic: the node's line, then the texts of the children. *)
Lemma node_equation (m : Mode) (props : list (string * value)) (level : Z)
    (self : value -> Z -> value -> result string) :
  children_shape props = true -> 1 <= level ->
  nodeToMarkdown_body self (JObject props) level (mode_value m)
  = rs <- traverse (fun c => self c (level + 1) (mode_value m))
                   (subtopics (JObject props)) ;;
    Ok (topicLine m level (titleText (JObject props)) ++ String.concat "" rs).
Proof.
  intros Hshape Hlevel. rewrite nodeToMarkdown_body_children.
  rewrite (Topic_children props Hshape), getNodeTitle_object.
  destruct m; cbn [mode_value Js.default_arg Js.truthy negb bind
                   Js.strict_eq_string topicLine].
  - replace (String.eqb "heading" "heading") with true by reflexivity.
    rewrite (repeat_heading level Hlevel). cbn [bind].
    apply for_of_append.
  - replace (String.eqb "list" "heading") with false by reflexivity.
    rewrite (repeat_indent level Hlevel). cbn [bind].
    apply for_of_append.
Qed.

Lemma traverse_total {A B : Type} (f : A -> result B) (xs : list A) :
  Forall (fun x => exists y, f x = Ok y) xs -> exists ys, traverse f xs = Ok ys.
Proof.
  induction 1 as [|x xs [y Hy] _ [ys Hys]]; simpl.
  - now exists [].
  - rewrite Hy, Hys. simpl. now exists (y :: ys).
Qed.

(** A Topic renders to a text, at every level from 1 on. *)
Lemma Topic_renders (m : Mode) (node : value) :
  Topic node ->
  forall level, 1 <= level -> exists md, nodeToMarkdown node level (mode_value m) = Ok md.
Proof.
  intros HT. induction HT as [props Hshape _ IH] using Topic_induction.
  intros level Hlevel.
  rewrite nodeToMarkdown_unfold, (node_equation m props level _ Hshape Hlevel).
  destruct (traverse_total (fun c => nodeToMarkdown c (level + 1) (mode_value m))
              (subtopics (JObject props))) as [rs Hrs].
  - eapply Forall_impl; [|exact IH]. intros c Hc. apply Hc. lia.
  - rewrite Hrs. simpl. eauto.
Qed.

(** ** Modes *)

(** An omitted mode is the heading mode. *)
Lemma nodeToMarkdown_omitted node level :
  nodeToMarkdown node level JUndefined = nodeToMarkdown node level (JString "heading").
Proof. now rewrite !nodeToMarkdown_unfold. Qed.

Lemma other_mode_test (mode : value) :
  other_mode mode ->
  Js.default_arg mode (JString "heading") = mode /\
  Js.strict_eq_string mode "heading" = false.
Proof.
  intros [Hu Hh]. split.
  - destruct mode; try reflexivity. now contradiction Hu.
  - destruct mode; try reflexivity. simpl.
    apply String.eqb_neq. intros ->. now contradiction Hh.
Qed.

(** Every such value renders as the list mode does. *)
Lemma nodeToMarkdown_calls_other (mode : value) :
  other_mode mode ->
  forall n node level,
    nodeToMarkdown_calls n node level mode
    = nodeToMarkdown_calls n node level (JString "list").
Proof.
  intros Hmode. destruct (other_mode_test mode Hmode) as [Hd Hs].
  induction n as [|n IH]; intros node level; [reflexivity|].
  simpl. unfold nodeToMarkdown_body. rewrite Hd, Hs.
  cbn [Js.default_arg Js.strict_eq_string].
  replace (String.eqb "list" "heading") with false by reflexivity.
  destruct (negb (Js.truthy node)); [reflexivity|].
  apply bind_ext. intros t _. apply bind_ext. intros md _.
  apply bind_ext. intros c _. apply bind_ext. intros a _.
  apply bind_ext. intros items _.
  apply for_of_ext with (P := fun _ => True).
  - now apply Forall_forall.
  - intros child s _. now rewrite IH.
Qed.

Lemma nodeToMarkdown_other (mode : value) node level :
  other_mode mode ->
  nodeToMarkdown node level mode = nodeToMarkdown node level (JString "list").
Proof. intros H. now apply nodeToMarkdown_calls_other. Qed.

(** A Topic renders under every mode value. *)
Lemma Topic_renders_any (mode : value) (node : value) (level : Z) :
  Topic node -> 1 <= level -> exists md, nodeToMarkdown node level mode = Ok md.
Proof.
  intros HT Hlevel.
  destruct mode as [| |b|n|s|items|props];
    try (rewrite nodeToMarkdown_other by (split; discriminate);
         now apply (Topic_renders Bullets)).
  - rewrite nodeToMarkdown_omitted. now apply (Topic_renders Heading).
  - destruct (String.eqb_spec s "heading") as [->|Hs].
    + now apply (Topic_renders Heading).
    + rewrite nodeToMarkdown_other by (split; congruence).
      now apply (Topic_renders Bullets).
Qed.

(** ** Sheets and documents *)

Lemma nodeToMarkdown_absent level mode :
  nodeToMarkdown JUndefined level mode = Ok "".
Proof. reflexivity. Qed.

(** The block of lines 132-137 appends its text to the accumulator. *)
Lemma sheetBlock_append count sheet rootTopic mode markdown :
  sheetBlock count sheet rootTopic mode markdown
  = r <- sheetBlock count sheet rootTopic mode "" ;; Ok (markdown ++ r).
Proof.
  unfold sheetBlock.
  destruct (Js.get sheet Js.title) as [t|e]; cbn [bind]; [|reflexivity].
  destruct (Js.truthy t && (1 <? count)%nat).
  - destruct (Js.to_string t) as [s|e]; cbn [bind]; [|reflexivity].
    destruct (nodeToMarkdown rootTopic 2 mode) as [r|e]; cbn [bind]; [|reflexivity].
    simpl. now rewrite append_assoc.
  - destruct (nodeToMarkdown rootTopic 1 mode) as [r|e]; cbn [bind]; reflexivity.
Qed.

Lemma sheetIteration_section content mode i markdown :
  sheetIteration content mode i markdown
  = r <- sheetSection (List.length content) (nth i content JUndefined) mode ;;
    Ok (markdown ++ (if (0 <? i)%nat then separator else "") ++ r).
Proof.
  unfold sheetIteration, sheetSection. cbv zeta.
  rewrite bind_assoc. apply bind_ext. intros root _.
  rewrite sheetBlock_append.
  destruct (sheetBlock _ _ root mode "") as [r|e]; cbn [bind]; [|reflexivity].
  destruct (0 <? i)%nat.
  - unfold separator. now rewrite !append_assoc.
  - reflexivity.
Qed.

(** The turns of the loop after the first one. *)
Lemma sheet_loop_rest mode (rest before : list value) (acc : string) :
  before <> [] ->
  Js.for_of (seq (List.length before) (List.length rest))
    (sheetIteration (before ++ rest) mode) acc
  = rs <- traverse (fun s => sheetSection (List.length (before ++ rest)) s mode) rest ;;
    Ok (acc ++ String.concat "" (map (fun r => separator ++ r) rs)).
Proof.
  revert before acc. induction rest as [|s rest IH]; intros before acc Hne.
  - simpl. now rewrite append_empty_r.
  - cbn [List.length seq Js.for_of traverse].
    rewrite sheetIteration_section.
    rewrite app_nth2, Nat.sub_diag by lia. cbn [nth].
    destruct (sheetSection _ s mode) as [r|e]; cbn [bind]; [|reflexivity].
    replace (0 <? List.length before)%nat with true
      by (destruct before; [contradiction | reflexivity]).
    specialize (IH (before ++ [s])%list (acc ++ separator ++ r)).
    rewrite <- app_assoc, length_app in IH. cbn [app List.length] in IH.
    rewrite Nat.add_1_r in IH. rewrite IH by (now destruct before).
    destruct (traverse _ rest) as [rs|e]; cbn [bind]; [|reflexivity].
    cbn [map]. now rewrite concat_empty_cons, !append_assoc.
Qed.

(** The output of a non-empty array: the section of the first element, then
    a separator and a section for each later element. *)
Lemma xmindToMarkdown_sections (first : value) (rest : list value) (mode : value) :
  xmindToMarkdown (JArray (first :: rest)) mode
  = let mode := Js.default_arg mode (JString "heading") in
    let count := List.length (first :: rest) in
    r0 <- sheetSection count first mode ;;
    rs <- traverse (fun s => sheetSection count s mode) rest ;;
    Ok (r0 ++ String.concat "" (map (fun r => separator ++ r) rs)).
Proof.
  unfold xmindToMarkdown. cbv zeta.
  cbn [List.length Nat.eqb seq Js.for_of].
  rewrite sheetIteration_section. cbn [nth Nat.ltb Nat.leb].
  rewrite bind_assoc. apply bind_ext. intros r0 _. cbn [bind].
  apply (sheet_loop_rest _ rest [first]). discriminate.
Qed.

(** A sheet object whose title is absent or a string: its section starts
    with the title line, and the root topic is rendered at level 2, exactly
    when the title is not empty and there are several sheets. *)
Lemma sheetSection_titled (count : nat) (props : list (string * value)) (mode : value) :
  title_shape props ->
  sheetSection count (JObject props) mode
  = if negb (String.eqb (titleText (JObject props)) "") && (1 <? count)%nat then
      r <- nodeToMarkdown (sheetRoot (JObject props)) 2 mode ;;
      Ok ("# " ++ titleText (JObject props) ++ nl ++ nl ++ r)
    else nodeToMarkdown (sheetRoot (JObject props)) 1 mode.
Proof.
  intros Htitle. unfold sheetSection, sheetBlock, sheetRoot, titleText.
  cbn [Js.get Js.field_name].
  set (root := match Js.own_prop props "rootTopic" with
               | Some r => r
               | None => JUndefined
               end).
  assert (Hget : match Js.own_prop props "rootTopic" with
                 | Some x => Ok x
                 | None => Ok JUndefined
                 end = Ok root).
  { unfold root. now destruct (Js.own_prop props "rootTopic"). }
  rewrite Hget. cbn [bind].
  destruct Htitle as [->|[t ->]]; cbn [bind Js.truthy andb negb].
  - replace (String.eqb "" "") with true by reflexivity. cbn [negb andb].
    destruct (nodeToMarkdown root 1 mode); reflexivity.
  - destruct (negb (String.eqb t "") && (1 <? count)%nat); cbn [Js.to_string bind].
    + destruct (nodeToMarkdown root 2 mode); [|reflexivity].
      cbn [bind]. now rewrite !append_assoc.
    + destruct (nodeToMarkdown root 1 mode); reflexivity.
Qed.

Lemma Sheet_renders (count : nat) (sheet mode : value) :
  Sheet sheet -> exists r, sheetSection count sheet mode = Ok r.
Proof.
  intros [props Htitle Hroot]. rewrite (sheetSection_titled count props mode Htitle).
  cbv zeta.
  assert (Hr : forall level, 1 <= level ->
            exists md, nodeToMarkdown (sheetRoot (JObject props)) level mode = Ok md).
  { intros level Hlevel. unfold sheetRoot.
    destruct Hroot as [->|(root & -> & HT)].
    - rewrite nodeToMarkdown_absent. eauto.
    - now apply Topic_renders_any. }
  destruct (negb _ && _).
  - destruct (Hr 2) as [md ->]; [lia|]. simpl. eauto.
  - apply Hr. lia.
Qed.

Lemma Document_renders (content mode : value) :
  Document content -> exists md, xmindToMarkdown content mode = Ok md.
Proof.
  intros (sheets & -> & Hne & Hsheets).
  destruct sheets as [|first rest]; [contradiction|].
  rewrite xmindToMarkdown_sections. cbv zeta.
  inversion Hsheets as [|? ? Hfirst Hrest]; subst.
  destruct (Sheet_renders (List.length (first :: rest)) first
              (Js.default_arg mode (JString "heading")) Hfirst) as [r0 ->].
  cbn [bind].
  destruct (traverse_total
              (fun s => sheetSection (List.length (first :: rest)) s
                          (Js.default_arg mode (JString "heading"))) rest) as [rs ->].
  - eapply Forall_impl; [|exact Hrest]. intros s Hs. now apply Sheet_renders.
  - simpl. eauto.
Qed.

(** The renderer treats every mode that is neither omitted nor "heading" as
    the list mode. *)
Lemma xmindToMarkdown_other (content mode : value) :
  other_mode mode ->
  xmindToMarkdown content mode = xmindToMarkdown content (JString "list").
Proof.
  intros Hmode. destruct (other_mode_test mode Hmode) as [Hd _].
  unfold xmindToMarkdown. rewrite Hd. cbn [Js.default_arg].
  destruct content; try reflexivity.
  destruct (List.length items =? 0)%nat; [reflexivity|].
  apply for_of_ext with (P := fun _ => True); [now apply Forall_forall|].
  intros i md _. unfold sheetIteration, sheetBlock. cbv zeta.
  apply bind_ext. intros root _. apply bind_ext. intros t _.
  destruct (Js.truthy t && _).
  - apply bind_ext. intros t' _. apply bind_ext. intros s _.
    now rewrite (nodeToMarkdown_other mode) by exact Hmode.
  - now rewrite (nodeToMarkdown_other mode) by exact Hmode.
Qed.

Lemma xmindToMarkdown_omitted (content : value) :
  xmindToMarkdown content JUndefined = xmindToMarkdown content (JString "heading").
Proof. reflexivity. Qed.

Lemma planRoot_Topic : Topic planRoot.
Proof. unfold planRoot. topic_shape. Qed.

Lemma plan_Document : Document plan.
Proof.
  eexists. split; [reflexivity|]. split; [discriminate|].
  apply Forall_cons; [|apply Forall_nil]. apply Sheet_object.
  - right. now exists "Plan".
  - right. exists planRoot. split; [reflexivity | apply planRoot_Topic].
Qed.

(** ** The claims about the per-topic renderer *)

(** C1.  Rendering a Topic at level [level], in either mode, gives the
    node's own line first and then the texts of its children, in order, each
    rendered at [level + 1] in the same mode (depth-first pre-order).  A
    Topic whose child sequence is empty gives exactly its own line, whatever
    the recursive call would do: it recurses no further. *)
Theorem preorder_rendering (m : Mode) (node : value) (level : Z) :
  Topic node -> 1 <= level ->
  (exists rs,
      Forall2 (fun c r => nodeToMarkdown c (level + 1) (mode_value m) = Ok r)
              (subtopics node) rs /\
      nodeToMarkdown node level (mode_value m)
      = Ok (topicLine m level (titleText node) ++ String.concat "" rs))
  /\ (subtopics node = [] ->
      nodeToMarkdown node level (mode_value m)
      = Ok (topicLine m level (titleText node)) /\
      forall self,
        nodeToMarkdown_body self node level (mode_value m)
        = Ok (topicLine m level (titleText node))).
Proof.
  intros HT Hlevel. destruct HT as [props Hshape Hsub]. split.
  - destruct (traverse_total (fun c => nodeToMarkdown c (level + 1) (mode_value m))
                (subtopics (JObject props))) as [rs Hrs].
    + eapply Forall_impl; [|exact Hsub].
      intros c Hc. apply (Topic_renders m c Hc). lia.
    + exists rs. split; [now apply traverse_Forall2|].
      rewrite nodeToMarkdown_unfold, (node_equation m props level _ Hshape Hlevel).
      now rewrite Hrs.
  - intros Hnone.
    assert (Hbody : forall self,
               nodeToMarkdown_body self (JObject props) level (mode_value m)
               = Ok (topicLine m level (titleText (JObject props)))).
    { intros self. rewrite (node_equation m props level self Hshape Hlevel), Hnone.
      cbn [traverse bind String.concat]. now rewrite append_empty_r. }
    split; [|exact Hbody]. rewrite nodeToMarkdown_unfold. apply Hbody.
Qed.

Lemma preorder_rendering_witness :
  Topic planRoot /\ 1 <= 1 /\
  (exists rs,
      Forall2 (fun c r => nodeToMarkdown c (1 + 1) (mode_value Bullets) = Ok r)
              (subtopics planRoot) rs /\
      nodeToMarkdown planRoot 1 (mode_value Bullets)
      = Ok (topicLine Bullets 1 (titleText planRoot) ++ String.concat "" rs)).
Proof.
  split; [apply planRoot_Topic|]. split; [lia|].
  apply (preorder_rendering Bullets planRoot 1); [apply planRoot_Topic | lia].
Defined.

(** C2.  In heading mode a Topic with title [t] and no children, at a level
    of at least 1, renders as "#" repeated [min level 6] times, a space,
    [t] and two line feeds; beyond level 6 that is exactly six "#". *)
Theorem heading_line (props : list (string * value)) (t : string) (level : Z) :
  Topic (JObject props) ->
  subtopics (JObject props) = [] ->
  Js.own_prop props "title" = Some (JString t) ->
  1 <= level ->
  nodeToMarkdown (JObject props) level (JString "heading")
  = Ok (String.concat "" (List.repeat "#" (Z.to_nat (Z.min level 6)))
        ++ " " ++ t ++ nl ++ nl)
  /\ (6 < level ->
      nodeToMarkdown (JObject props) level (JString "heading")
      = Ok ("######" ++ " " ++ t ++ nl ++ nl)).
Proof.
  intros HT Hnone Htitle Hlevel.
  assert (Hshape : children_shape props = true) by now inversion HT.
  assert (Hline : nodeToMarkdown (JObject props) level (JString "heading")
                  = Ok (headingLine level t)).
  { rewrite nodeToMarkdown_unfold.
    rewrite (node_equation Heading props level _ Hshape Hlevel), Hnone.
    cbn [traverse bind String.concat topicLine titleText].
    now rewrite Htitle, append_empty_r. }
  split; [exact Hline|].
  intros Hdeep. rewrite Hline. unfold headingLine.
  now replace (Z.min level 6) with 6 by lia.
Qed.

Lemma heading_line_witness :
  Topic (JObject [("title", JString "Deep")]) /\
  subtopics (JObject [("title", JString "Deep")]) = [] /\
  1 <= 9 /\
  nodeToMarkdown (JObject [("title", JString "Deep")]) 9 (JString "heading")
  = Ok ("######" ++ " " ++ "Deep" ++ nl ++ nl).
Proof.
  assert (HT : Topic (JObject [("title", JString "Deep")])) by topic_shape.
  split; [exact HT|]. split; [reflexivity|]. split; [lia|].
  apply (heading_line [("title", JString "Deep")] "Deep" 9 HT);
    [reflexivity | reflexivity | lia | lia].
Defined.

(** C3.  In list mode a Topic with title [t] and no children, at a level of
    at least 1, renders as two spaces repeated [level - 1] times, "- ", [t]
    and a single line feed. *)
Theorem list_line (props : list (string * value)) (t : string) (level : Z) :
  Topic (JObject props) ->
  subtopics (JObject props) = [] ->
  Js.own_prop props "title" = Some (JString t) ->
  1 <= level ->
  nodeToMarkdown (JObject props) level (JString "list")
  = Ok (String.concat "" (List.repeat "  " (Z.to_nat (level - 1)))
        ++ "- " ++ t ++ nl).
Proof.
  intros HT Hnone Htitle Hlevel.
  assert (Hshape : children_shape props = true) by now inversion HT.
  rewrite nodeToMarkdown_unfold.
  rewrite (node_equation Bullets props level _ Hshape Hlevel), Hnone.
  cbn [traverse bind String.concat topicLine titleText].
  now rewrite Htitle, append_empty_r.
Qed.

Lemma list_line_witness :
  Topic (JObject [("title", JString "Item")]) /\
  subtopics (JObject [("title", JString "Item")]) = [] /\
  1 <= 3 /\
  nodeToMarkdown (JObject [("title", JString "Item")]) 3 (JString "list")
  = Ok ("    - Item" ++ nl).
Proof.
  assert (HT : Topic (JObject [("title", JString "Item")])) by topic_shape.
  split; [exact HT|]. split; [reflexivity|]. split; [lia|].
  apply (list_line [("title", JString "Item")] "Item" 3 HT);
    [reflexivity | reflexivity | lia].
Defined.

(** C8.  The title text of every value: its [title] property when the value
    is an object and that property is a string, the empty text in every
    other case; [getNodeTitle] raises no exception. *)
Theorem title_text (node : value) :
  getNodeTitle node = Ok (titleText node).
Proof.
  destruct node as [| |b|n|s|items|props]; try reflexivity.
  - now destruct b.
  - unfold getNodeTitle. simpl. now destruct n.
  - unfold getNodeTitle. simpl. now destruct (negb (String.eqb s "")).
  - apply getNodeTitle_object.
Qed.

(** C10.  The renderer is total on Topics: a Topic, at a level of at least
    1 and under any mode value, renders to a text; every call of the
    recursion is on a child, which is less deep than its parent; and any
    number of nested calls above the depth of the node gives that text. *)
Theorem renderer_total (node : value) (level : Z) (mode : value) :
  Topic node -> 1 <= level ->
  (exists md, nodeToMarkdown node level mode = Ok md)
  /\ nodeChildren node = Ok (subtopics node)
  /\ Forall (fun c => (depth c < depth node)%nat) (subtopics node)
  /\ nodeToMarkdown node level mode
     = nodeToMarkdown_body nodeToMarkdown node level mode
  /\ (forall calls, (depth node < calls)%nat ->
        nodeToMarkdown_calls calls node level mode = nodeToMarkdown node level mode).
Proof.
  intros HT Hlevel.
  assert (Hc : nodeChildren node = Ok (subtopics node)).
  { destruct HT as [props Hshape _]. now apply Topic_children. }
  split; [now apply Topic_renders_any|].
  split; [exact Hc|].
  split; [now apply nodeChildren_depth|].
  split; [apply nodeToMarkdown_unfold|].
  intros calls Hcalls. unfold nodeToMarkdown.
  apply nodeToMarkdown_calls_stable; lia.
Qed.

Lemma renderer_total_witness :
  Topic planRoot /\ 1 <= 1 /\
  exists md, nodeToMarkdown planRoot 1 (JString "heading") = Ok md.
Proof.
  split; [apply planRoot_Topic|]. split; [lia|].
  apply (renderer_total planRoot 1 (JString "heading")); [apply planRoot_Topic | lia].
Defined.

(** ** The claims about sheets and documents *)

(** C4.  The output for the sheets [first :: rest] is the section of
    [first], then, for each later sheet in order, the separator (a line
    feed, "---" and two line feeds) followed by the section of that sheet;
    the output for a single sheet is its section alone, with no separator. *)
Theorem sheets_joined (first : value) (rest : list value) (mode : value) :
  xmindToMarkdown (JArray (first :: rest)) mode
  = (r0 <- sheetSection (List.length (first :: rest)) first
             (Js.default_arg mode (JString "heading")) ;;
     rs <- traverse (fun s => sheetSection (List.length (first :: rest)) s
                                (Js.default_arg mode (JString "heading"))) rest ;;
     Ok (r0 ++ String.concat ""
                 (map (fun r => nl ++ "---" ++ nl ++ nl ++ r) rs)))
  /\ xmindToMarkdown (JArray [first]) mode
     = sheetSection 1 first (Js.default_arg mode (JString "heading")).
Proof.
  split.
  - apply xmindToMarkdown_sections.
  - rewrite xmindToMarkdown_sections. cbv zeta. cbn [traverse bind map List.length].
    destruct (sheetSection 1 first _) as [r0|e]; cbn [bind]; [|reflexivity].
    simpl. now rewrite append_empty_r.
Qed.

(** C5.  For a sheet whose title is absent or a string, among [count]
    sheets: the section is the line "# " followed by the title and two line
    feeds, then the root topic rendered from level 2, exactly when the title
    is not empty and [count] is more than one; otherwise it is the root
    topic rendered from level 1, with no title line.  In particular a
    document of one sheet never shows the title of the sheet. *)
Theorem sheet_title_rule (count : nat) (props : list (string * value)) (mode : value) :
  title_shape props ->
  sheetSection count (JObject props) mode
  = (if negb (String.eqb (titleText (JObject props)) "") && (1 <? count)%nat then
       r <- nodeToMarkdown (sheetRoot (JObject props)) 2 mode ;;
       Ok ("# " ++ titleText (JObject props) ++ nl ++ nl ++ r)
     else nodeToMarkdown (sheetRoot (JObject props)) 1 mode)
  /\ xmindToMarkdown (JArray [JObject props]) mode
     = nodeToMarkdown (sheetRoot (JObject props)) 1
         (Js.default_arg mode (JString "heading")).
Proof.
  intros Htitle. split.
  - apply (sheetSection_titled count props _ Htitle).
  - rewrite xmindToMarkdown_sections. cbv zeta. cbn [traverse bind map List.length].
    rewrite (sheetSection_titled 1 props _ Htitle). cbv zeta.
    replace (1 <? 1)%nat with false by reflexivity. rewrite andb_false_r.
    destruct (nodeToMarkdown _ 1 _) as [r|e]; cbn [bind]; [|reflexivity].
    simpl. now rewrite append_empty_r.
Qed.

Lemma sheet_title_rule_witness :
  title_shape [("title", JString "Plan"); ("rootTopic", planRoot)] /\
  xmindToMarkdown plan (JString "list")
  = nodeToMarkdown planRoot 1 (JString "list").
Proof.
  assert (Ht : title_shape [("title", JString "Plan"); ("rootTopic", planRoot)])
    by (right; now exists "Plan").
  split; [exact Ht|].
  apply (sheet_title_rule 1 [("title", JString "Plan"); ("rootTopic", planRoot)]
           (JString "list") Ht).
Defined.

(** C9.  A sheet with no root topic, whose title is absent or a string, is
    an empty section: its title line when the title is not empty and there
    are several sheets, the empty text otherwise; no exception is raised,
    and a document made of that sheet alone renders as the empty text. *)
Theorem rootless_sheet (count : nat) (props : list (string * value)) (mode : value) :
  Js.own_prop props "rootTopic" = None ->
  title_shape props ->
  sheetSection count (JObject props) mode
  = Ok (if negb (String.eqb (titleText (JObject props)) "") && (1 <? count)%nat
        then "# " ++ titleText (JObject props) ++ nl ++ nl
        else "")
  /\ xmindToMarkdown (JArray [JObject props]) mode = Ok "".
Proof.
  intros Hroot Htitle.
  assert (Hsec : forall n m,
             sheetSection n (JObject props) m
             = Ok (if negb (String.eqb (titleText (JObject props)) "") && (1 <? n)%nat
                   then "# " ++ titleText (JObject props) ++ nl ++ nl
                   else "")).
  { intros n m. rewrite (sheetSection_titled n props m Htitle). cbv zeta.
    unfold sheetRoot. rewrite Hroot, !nodeToMarkdown_absent.
    destruct (negb _ && _); [|reflexivity].
    cbn [bind]. now rewrite !append_empty_r. }
  split; [apply Hsec|].
  rewrite xmindToMarkdown_sections. cbv zeta. cbn [traverse bind map List.length].
  rewrite Hsec. replace (1 <? 1)%nat with false by reflexivity.
  now rewrite andb_false_r.
Qed.

Lemma rootless_sheet_witness :
  Js.own_prop [("title", JString "Empty")] "rootTopic" = None /\
  title_shape [("title", JString "Empty")] /\
  sheetSection 2 (JObject [("title", JString "Empty")]) (JString "heading")
  = Ok ("# Empty" ++ nl ++ nl).
Proof.
  assert (Ht : title_shape [("title", JString "Empty")])
    by (right; now exists "Empty").
  split; [reflexivity|]. split; [exact Ht|].
  apply (rootless_sheet 2 [("title", JString "Empty")] (JString "heading")
           eq_refl Ht).
Defined.

(** C7, as the spec states it, fails: the mode "mindmap" is neither
    "heading" nor "list", and the document of the examples renders under it,
    as a list, instead of failing with [InvalidFormat]. *)
Lemma unknown_mode_accepted :
  Document plan /\
  JString "mindmap" <> JString "heading" /\
  JString "mindmap" <> JString "list" /\
  xmindToMarkdown plan (JString "mindmap")
  = Ok ("- Root" ++ nl ++ "  - A" ++ nl ++ "  - B" ++ nl) /\
  xmindToMarkdown plan (JString "mindmap") <> Throw InvalidFormat.
Proof.
  split; [apply plan_Document|].
  split; [discriminate|]. split; [discriminate|].
  assert (H : xmindToMarkdown plan (JString "mindmap")
              = Ok ("- Root" ++ nl ++ "  - A" ++ nl ++ "  - B" ++ nl))
    by (vm_compute; reflexivity).
  split; [exact H|]. rewrite H. discriminate.
Qed.

(** C7, amended.  A Document renders under every mode value: a value that
    is neither omitted nor the string "heading" gives the list rendering,
    and an omitted mode gives the heading rendering. *)
Theorem mode_dispatch (content mode : value) :
  Document content ->
  (exists md, xmindToMarkdown content mode = Ok md)
  /\ (mode <> JUndefined -> mode <> JString "heading" ->
      xmindToMarkdown content mode = xmindToMarkdown content (JString "list"))
  /\ xmindToMarkdown content JUndefined = xmindToMarkdown content (JString "heading").
Proof.
  intros Hdoc. split; [now apply Document_renders|]. split.
  - intros Hu Hh. apply xmindToMarkdown_other. now split.
  - apply xmindToMarkdown_omitted.
Qed.

Lemma mode_dispatch_witness :
  Document plan /\
  xmindToMarkdown plan (JString "mindmap") = xmindToMarkdown plan (JString "list").
Proof.
  split; [apply plan_Document|].
  apply (mode_dispatch plan (JString "mindmap") plan_Document); discriminate.
Defined.

(** ** More on the renderer *)

Lemma nodeToMarkdown_calls_clamp (n : nat) :
  forall node level,
    6 <= level ->
    nodeToMarkdown_calls n node level (JString "heading")
    = nodeToMarkdown_calls n node 6 (JString "heading").
Proof.
  induction n as [|n IH]; intros node level Hlevel; [reflexivity|].
  simpl. unfold nodeToMarkdown_body. cbn [Js.default_arg Js.strict_eq_string].
  replace (String.eqb "heading" "heading") with true by reflexivity.
  replace (Z.min level 6) with (Z.min 6 6) by lia.
  destruct (negb (Js.truthy node)); [reflexivity|].
  apply bind_ext. intros t _. apply bind_ext. intros md _.
  apply bind_ext. intros c _. apply bind_ext. intros a _.
  apply bind_ext. intros items _.
  apply for_of_ext with (P := fun _ => True); [now apply Forall_forall|].
  intros child s _. now rewrite (IH child (level + 1)), (IH child (6 + 1)) by lia.
Qed.

Lemma getNodeTitle_total (node : value) : exists t, getNodeTitle node = Ok t.
Proof.
  unfold getNodeTitle. destruct (negb (Js.truthy node)) eqn:E; [eauto|].
  destruct node as [| |b|n|s|items|props]; try discriminate;
    try (now exists "").
  cbn [Js.get Js.field_name].
  destruct (Js.own_prop props "title") as [[| |b|n|s|items|props']|];
    cbn [bind]; eauto.
Qed.

Lemma get_TypeError v f e : Js.get v f = Throw e -> is_TypeError e.
Proof.
  destruct v; simpl; try discriminate; try (intros H; injection H as <-; now eexists).
  now destruct (Js.own_prop props (Js.field_name f)).
Qed.

Lemma get_opt_TypeError v f e : Js.get_opt v f = Throw e -> is_TypeError e.
Proof.
  destruct v; simpl; try discriminate.
  now destruct (Js.own_prop props (Js.field_name f)).
Qed.

Lemma iterate_TypeError v e : Js.iterate v = Throw e -> is_TypeError e.
Proof.
  destruct v; simpl; try discriminate; intros H; injection H as <-; now eexists.
Qed.

Lemma bind_Throw {A B : Type} (r : result A) (k : A -> result B) (e : exn) :
  bind r k = Throw e -> r = Throw e \/ exists a, r = Ok a /\ k a = Throw e.
Proof.
  destruct r as [a|e']; simpl; intros H.
  - right. exists a. split; [reflexivity | exact H].
  - left. now injection H as ->.
Qed.

Lemma to_string_TypeError : forall v e, Js.to_string v = Throw e -> is_TypeError e.
Proof.
  fix IH 1. intros [| |[|]|n|s|items|props] e; simpl; try discriminate.
  - induction items as [|x rest IHrest]; [discriminate|].
    destruct (match x with
              | JUndefined | JNull => Ok ""
              | _ => Js.to_string x
              end) as [sx|ex] eqn:Ex; cbn [bind].
    + destruct rest as [|y rest']; [discriminate|].
      intros H. apply bind_Throw in H as [H|(sr & _ & H)]; [|discriminate H].
      apply IHrest, H.
    + intros H. injection H as <-. apply (IH x).
      destruct x; try discriminate; exact Ex.
  - destruct (Js.own_prop props "toString"); [|discriminate].
    intros H. injection H as <-. now eexists.
Qed.

Lemma for_of_Throw {A S : Type} (P : exn -> Prop) (Q : A -> Prop) (xs : list A)
    (body : A -> S -> result S) :
  Forall Q xs ->
  (forall x s e, Q x -> body x s = Throw e -> P e) ->
  forall s e, Js.for_of xs body s = Throw e -> P e.
Proof.
  intros HQ Hbody. induction HQ as [|x rest Hx _ IH]; intros s e; simpl.
  - discriminate.
  - destruct (body x s) as [s'|e'] eqn:E; cbn [bind].
    + apply IH.
    + intros H. injection H as <-. now apply (Hbody x s).
Qed.

(** From a level that is not negative, a node fails to render only with a
    [TypeError]. *)
Lemma nodeToMarkdown_TypeError (n : nat) :
  forall node level mode e,
    (depth node < n)%nat -> 0 <= level ->
    nodeToMarkdown node level mode = Throw e -> is_TypeError e.
Proof.
  induction n as [|n IH]; intros node level mode e Hdepth Hlevel; [lia|].
  rewrite nodeToMarkdown_unfold, nodeToMarkdown_body_children. cbv zeta.
  destruct (negb (Js.truthy node)); [discriminate|].
  destruct (getNodeTitle_total node) as [t ->]. cbn [bind].
  assert (Hline : exists md,
             (if Js.strict_eq_string (Js.default_arg mode (JString "heading")) "heading"
              then hashes <- Js.repeat "#" (Z.min level 6) ;;
                   Ok ("" ++ hashes ++ " " ++ t ++ nl ++ nl)
              else indent <- Js.repeat "  " (Z.max 0 (level - 1)) ;;
                   Ok ("" ++ indent ++ "- " ++ t ++ nl)) = Ok md).
  { unfold Js.repeat. destruct (Js.strict_eq_string _ _).
    - destruct (Z.ltb_spec (Z.min level 6) 0); [lia | simpl; eauto].
    - destruct (Z.ltb_spec (Z.max 0 (level - 1)) 0); [lia | simpl; eauto]. }
  destruct Hline as [md ->]. cbn [bind].
  destruct (nodeChildren node) as [items|e'] eqn:Hitems; cbn [bind].
  - apply for_of_Throw with (Q := fun c => (depth c < depth node)%nat).
    + now apply nodeChildren_depth.
    + intros child s e' Hchild.
      destruct (nodeToMarkdown child (level + 1) _) as [r|e''] eqn:E; cbn [bind];
        [discriminate|].
      intros H. injection H as <-. apply (IH child (level + 1) (Js.default_arg mode (JString "heading")) e'');
        [lia | lia | exact E].
  - intros H. injection H as <-. unfold nodeChildren in Hitems.
    destruct (Js.get node Js.children) as [c|ec] eqn:Ec; cbn [bind] in Hitems.
    + destruct (Js.get_opt c Js.attached) as [a|ea] eqn:Ea; cbn [bind] in Hitems.
      * now apply iterate_TypeError in Hitems.
      * injection Hitems as <-. now apply get_opt_TypeError in Ea.
    + injection Hitems as <-. now apply get_TypeError in Ec.
Qed.

Lemma sheetIteration_TypeError content mode i markdown e :
  sheetIteration content mode i markdown = Throw e -> is_TypeError e.
Proof.
  assert (Hnode : forall node level e',
             0 <= level -> nodeToMarkdown node level mode = Throw e' -> is_TypeError e').
  { intros node level e' Hlevel. apply (nodeToMarkdown_TypeError (S (depth node))); lia. }
  unfold sheetIteration, sheetBlock. cbv zeta.
  destruct (Js.get _ Js.rootTopic) as [root|e1] eqn:E1; cbn [bind];
    [|intros H; injection H as <-; now apply get_TypeError in E1].
  destruct (Js.get _ Js.title) as [t|e2] eqn:E2; cbn [bind];
    [|intros H; injection H as <-; now apply get_TypeError in E2].
  destruct (Js.truthy t && _).
  - destruct (Js.to_string t) as [s|e3] eqn:E3; cbn [bind];
      [|intros H; injection H as <-; now apply to_string_TypeError in E3].
    destruct (nodeToMarkdown root 2 mode) as [r|e4] eqn:E4; cbn [bind]; [discriminate|].
    intros H. injection H as <-. apply (Hnode root 2); [lia | exact E4].
  - destruct (nodeToMarkdown root 1 mode) as [r|e4] eqn:E4; cbn [bind]; [discriminate|].
    intros H. injection H as <-. apply (Hnode root 1); [lia | exact E4].
Qed.

Lemma xmindToMarkdown_failure content mode e :
  xmindToMarkdown content mode = Throw e -> e = InvalidFormat \/ is_TypeError e.
Proof.
  unfold xmindToMarkdown.
  destruct content as [| |b|n|s|items|props];
    try (intros H; injection H as <-; now left).
  destruct (List.length items =? 0)%nat; [intros H; injection H as <-; now left|].
  intros H. right. revert H.
  apply for_of_Throw with (Q := fun _ => True); [now apply Forall_forall|].
  intros i s e' _. apply sheetIteration_TypeError.
Qed.

(** The children that are [null], [false], zero or empty add nothing. *)
Lemma for_of_truthy (render : value -> result string) (xs : list value) (acc : string) :
  (forall x, Js.truthy x = false -> render x = Ok "") ->
  Js.for_of xs (fun child md => r <- render child ;; Ok (md ++ r)) acc
  = Js.for_of (filter Js.truthy xs) (fun child md => r <- render child ;; Ok (md ++ r)) acc.
Proof.
  intros Hfalsy. revert acc. induction xs as [|x xs IH]; intros acc; [reflexivity|].
  cbn [filter]. destruct (Js.truthy x) eqn:E; cbn [Js.for_of].
  - apply bind_ext. intros s _. apply IH.
  - rewrite (Hfalsy x E). cbn [bind]. rewrite append_empty_r. apply IH.
Qed.

Lemma nodeToMarkdown_falsy node level mode :
  Js.truthy node = false -> nodeToMarkdown node level mode = Ok "".
Proof.
  intros H. rewrite nodeToMarkdown_unfold. unfold nodeToMarkdown_body.
  now rewrite H.
Qed.

Lemma xmindToMarkdown_default (content mode : value) :
  xmindToMarkdown content (Js.default_arg mode (JString "heading"))
  = xmindToMarkdown content mode.
Proof. unfold xmindToMarkdown. now destruct mode. Qed.

(** ** The claim about failures *)

(** C6, as the spec states it, fails: the array [[null]] is not a sequence
    of sheets, and rendering it raises a [TypeError] (line 126 reads a
    property of [null]), which is none of the three kinds. *)
Lemma null_sheet_type_error :
  ~ Document (JArray [JNull]) /\
  xmindToMarkdown (JArray [JNull]) (JString "heading")
  = Throw (TypeError "Cannot read properties of null (reading 'rootTopic')") /\
  xmindToMarkdown (JArray [JNull]) (JString "heading") <> Throw InvalidFormat /\
  xmindToMarkdown (JArray [JNull]) (JString "heading") <> Throw MissingPayload /\
  (forall diagnostic,
      xmindToMarkdown (JArray [JNull]) (JString "heading")
      <> Throw (MalformedPayload diagnostic)).
Proof.
  split.
  - intros (sheets & Heq & _ & Hsheets). injection Heq as <-.
    inversion Hsheets as [|? ? Hnull _]. inversion Hnull.
  - assert (H : xmindToMarkdown (JArray [JNull]) (JString "heading")
                = Throw (TypeError "Cannot read properties of null (reading 'rootTopic')"))
      by reflexivity.
    split; [exact H|]. rewrite H.
    split; [discriminate|]. split; [discriminate|].
    intros diagnostic. discriminate.
Qed.

Section ExtractorClaims.

Variables (buffer archive entry : Type).
Variable readFileSync : string -> result buffer.
Variable loadAsync : buffer -> result archive.
Variable file : archive -> string -> option entry.
Variable async_string : entry -> result string.
Variable JSON_parse : string -> result value.
Variable path_dirname : string -> string.
Variable existsSync : string -> bool.
Variable mkdir_outcome : string -> bool -> result unit.
Variable write_outcome : string -> string -> result unit.

(** C6, amended.  On a file that can be read and opened as a zip container:
    without an entry named content.json the extraction fails with the
    missing-payload error; with an entry whose text the parser rejects it
    fails with the parser's [SyntaxError] and its diagnostic; a parsed value
    that is not a non-empty array fails to render with the invalid-format
    error, and then the conversion fails with it before any call that
    changes the file system; a non-empty array is never rejected with the
    invalid-format error: its rendering succeeds or raises a [TypeError];
    the rendering of a Document succeeds, under every mode value, so that
    the conversion of such a payload fails only where the call of
    [mkdirSync] or of [writeFileSync] fails. *)
Theorem failure_kinds (xmindPath outputPath : string) (data : buffer) (zip : archive) :
  readFileSync xmindPath = Ok data ->
  loadAsync data = Ok zip ->
  (file zip "content.json" = None ->
   readXmindContent readFileSync loadAsync file async_string JSON_parse
     xmindPath = Throw MissingPayload)
  /\ (forall contentFile contentJson diagnostic,
        file zip "content.json" = Some contentFile ->
        async_string contentFile = Ok contentJson ->
        JSON_parse contentJson = Throw (SyntaxError diagnostic) ->
        readXmindContent readFileSync loadAsync file async_string JSON_parse
          xmindPath = Throw (MalformedPayload diagnostic))
  /\ (forall content mode,
        (forall first rest, content <> JArray (first :: rest)) ->
        xmindToMarkdown content mode = Throw InvalidFormat)
  /\ (forall first rest mode e,
        xmindToMarkdown (JArray (first :: rest)) mode = Throw e ->
        e <> InvalidFormat /\ is_TypeError e)
  /\ (forall content mode,
        Document content -> exists md, xmindToMarkdown content mode = Ok md)
  /\ (forall contentFile contentJson content mode,
        file zip "content.json" = Some contentFile ->
        async_string contentFile = Ok contentJson ->
        JSON_parse contentJson = Ok content ->
        ((forall first rest, content <> JArray (first :: rest)) ->
         convertXmindFile readFileSync loadAsync file async_string JSON_parse
           path_dirname existsSync mkdir_outcome write_outcome
           xmindPath outputPath mode
         = ([], Throw InvalidFormat))
        /\ (Document content ->
            exists md,
              xmindToMarkdown content mode = Ok md /\
              forall e,
                snd (convertXmindFile readFileSync loadAsync file async_string
                       JSON_parse path_dirname existsSync mkdir_outcome
                       write_outcome xmindPath outputPath mode)
                = Throw e ->
                (existsSync (path_dirname outputPath) = false /\
                 mkdir_outcome (path_dirname outputPath) true = Throw e)
                \/ write_outcome outputPath md = Throw e)).
Proof.
  intros Hread Hload.
  assert (Hinvalid : forall content mode,
             (forall first rest, content <> JArray (first :: rest)) ->
             xmindToMarkdown content mode = Throw InvalidFormat).
  { intros content mode Hshape. unfold xmindToMarkdown.
    destruct content as [| |b|n|s|items|props]; try reflexivity.
    destruct items as [|first rest]; [reflexivity|].
    now contradiction (Hshape first rest). }
  assert (Hentry : forall contentFile contentJson,
             file zip "content.json" = Some contentFile ->
             async_string contentFile = Ok contentJson ->
             readXmindContent readFileSync loadAsync file async_string JSON_parse
               xmindPath = JSON_parse contentJson).
  { intros contentFile contentJson Hfile Htext. unfold readXmindContent.
    rewrite Hread. cbn [bind]. rewrite Hload. cbn [bind].
    now rewrite Hfile, Htext. }
  split; [|split; [|split; [|split; [|split]]]].
  - intros Hnone. unfold readXmindContent.
    rewrite Hread. cbn [bind]. rewrite Hload. cbn [bind]. now rewrite Hnone.
  - intros contentFile contentJson diagnostic Hfile Htext Hparse.
    now rewrite (Hentry contentFile contentJson Hfile Htext).
  - exact Hinvalid.
  - intros first rest mode e H.
    assert (Ht : is_TypeError e).
    { revert H. unfold xmindToMarkdown. cbn [List.length Nat.eqb].
      apply for_of_Throw with (Q := fun _ => True); [now apply Forall_forall|].
      intros i s e' _. apply sheetIteration_TypeError. }
    split; [|exact Ht]. destruct Ht as [m ->]. discriminate.
  - intros content mode Hdoc. now apply Document_renders.
  - intros contentFile contentJson content mode Hfile Htext Hparse.
    unfold convertXmindFile. cbv zeta.
    rewrite (Hentry contentFile contentJson Hfile Htext), Hparse.
    cbn [io_lift io_bind app]. rewrite xmindToMarkdown_default.
    split.
    + intros Hshape. now rewrite (Hinvalid content mode Hshape).
    + intros Hdoc. destruct (Document_renders content mode Hdoc) as [md Hmd].
      exists md. split; [exact Hmd|]. rewrite Hmd.
      unfold mkdirSync, writeFileSync, io_ret.
      destruct (existsSync (path_dirname outputPath)); cbn [negb io_bind app snd].
      * intros e He. now right.
      * destruct (mkdir_outcome (path_dirname outputPath) true) as [u|e'];
          cbn [snd]; intros e He.
        -- now right.
        -- left. split; [reflexivity | exact He].
Qed.

End ExtractorClaims.

Lemma failure_kinds_witness :
  sampleRead "a.xmind" = Ok tt /\
  sampleLoad tt = Ok sampleArchive /\
  sampleFile sampleArchive "content.json" = None /\
  readXmindContent sampleRead sampleLoad sampleFile sampleText sampleParse "a.xmind"
  = Throw MissingPayload.
Proof.
  split; [reflexivity|]. split; [reflexivity|]. split; [reflexivity|].
  apply (failure_kinds unit (list (string * string)) string
           sampleRead sampleLoad sampleFile sampleText sampleParse
           sampleDirname (fun _ => false) (fun _ _ => Ok tt) (fun _ _ => Ok tt)
           "a.xmind" "out/a.md" tt sampleArchive eq_refl eq_refl).
  reflexivity.
Defined.

(** ** The file collector: what it finds *)

(** Induction on an entry, with the property for the entries of a
    directory. *)
Lemma fsnode_induction (P : fsnode -> Prop) :
  P RegularFile ->
  (forall entries,
      Forall (fun kv => P (snd kv)) entries -> P (Directory entries)) ->
  (forall e, P (Unlistable e)) ->
  P OtherKind ->
  (forall e, P (NoStat e)) ->
  forall here, P here.
Proof.
  intros Hfile Hdir Hunl Hother Hnostat. fix IH 1. intros [|entries|e| |e].
  - exact Hfile.
  - apply Hdir. induction entries as [|[item sub] rest IHrest]; constructor.
    + apply IH.
    + exact IHrest.
  - apply Hunl.
  - exact Hother.
  - apply Hnostat.
Qed.

Section CollectorFacts.

Variable path_join : list string -> string.
Variable path_extname : string -> string.

(** One turn of the loop of lines 37-45. *)
Lemma collect_turn (dir item : string) (stat : fsnode)
    (rest : list (string * fsnode)) (files : list string) :
  collectXmindFiles path_join path_extname dir (Directory ((item, stat) :: rest)) files
  = match stat with
    | NoStat e => Throw e
    | Directory _ | Unlistable _ =>
        files' <- collectXmindFiles path_join path_extname
                    (path_join [dir; item]) stat files ;;
        collectXmindFiles path_join path_extname dir (Directory rest) files'
    | RegularFile =>
        if String.eqb (path_extname item) ".xmind"
        then collectXmindFiles path_join path_extname dir (Directory rest)
               (files ++ [path_join [dir; item]])%list
        else collectXmindFiles path_join path_extname dir (Directory rest) files
    | OtherKind => collectXmindFiles path_join path_extname dir (Directory rest) files
    end.
Proof. destruct stat; reflexivity. Qed.

(** The collector only appends: its result is the given list followed by
    what it finds from an empty list, and it fails on the same entries. *)
Lemma collect_frame (here : fsnode) :
  forall dir files,
    collectXmindFiles path_join path_extname dir here files
    = found <- collectXmindFiles path_join path_extname dir here [] ;;
      Ok (files ++ found)%list.
Proof.
  induction here as [|entries IH|e| |e] using fsnode_induction;
    intros dir files; try reflexivity.
  revert files. induction IH as [|[item stat] rest Hstat _ IHrest]; intros files.
  - simpl. now rewrite app_nil_r.
  - rewrite !collect_turn. simpl in Hstat.
    destruct stat as [|sub|e| |e]; try reflexivity.
    + destruct (String.eqb (path_extname item) ".xmind").
      * rewrite (IHrest (files ++ _)%list), (IHrest ([] ++ _)%list).
        rewrite bind_assoc. apply bind_ext. intros found _. cbn [bind].
        now rewrite <- !app_assoc.
      * apply IHrest.
    + rewrite (Hstat _ files), !bind_assoc. apply bind_ext. intros below _.
      cbn [bind]. rewrite (IHrest (files ++ below)%list).
      rewrite (IHrest below), bind_assoc.
      apply bind_ext. intros found _. cbn [bind].
      now rewrite <- !app_assoc.
    + apply IHrest.
Qed.

Lemma located_turn (dir item : string) (stat : fsnode)
    (rest : list (string * fsnode)) (p : string) :
  located path_join path_extname dir (Directory ((item, stat) :: rest)) p
  <-> (stat = RegularFile /\ path_extname item = ".xmind" /\ p = path_join [dir; item])
      \/ located path_join path_extname (path_join [dir; item]) stat p
      \/ located path_join path_extname dir (Directory rest) p.
Proof.
  split.
  - intros H. inversion H as [d es it Hin Hext|d es it sub q Hin Hsub]; subst.
    + destruct Hin as [Heq|Hin].
      * injection Heq as <- <-. now left.
      * right. right. now apply located_here.
    + destruct Hin as [Heq|Hin].
      * injection Heq as <- <-. right. now left.
      * right. right. now apply located_below with (item := it) (sub := sub).
  - intros [(-> & Hext & ->)|[Hsub|Hrest]].
    + apply located_here; [now left | exact Hext].
    + apply located_below with (item := item) (sub := stat); [now left | exact Hsub].
    + inversion Hrest as [d es it Hin Hext|d es it sub q Hin Hsub]; subst.
      * apply located_here; [now right | exact Hext].
      * apply located_below with (item := it) (sub := sub); [now right | exact Hsub].
Qed.

Lemma located_directory_only (dir : string) (here : fsnode) (p : string) :
  located path_join path_extname dir here p -> exists entries, here = Directory entries.
Proof. intros H. inversion H; eauto. Qed.

(** What the collector finds from an empty list is exactly the regular
    files with the extension below the directory. *)
Lemma collect_exact (here : fsnode) :
  forall dir found,
    collectXmindFiles path_join path_extname dir here [] = Ok found ->
    forall p, In p found <-> located path_join path_extname dir here p.
Proof.
  induction here as [|entries IH|e| |e] using fsnode_induction;
    intros dir found Hfound p; try discriminate.
  revert found Hfound. induction IH as [|[item stat] rest Hstat _ IHrest];
    intros found Hfound.
  - injection Hfound as <-. split; [contradiction|].
    intros H. inversion H; contradiction.
  - rewrite collect_turn in Hfound. rewrite located_turn. simpl in Hstat.
    destruct stat as [|sub|e| |e]; try discriminate.
    + destruct (String.eqb_spec (path_extname item) ".xmind") as [Hext|Hext].
      * rewrite collect_frame in Hfound.
        apply bind_Ok in Hfound as (more & Hmore & Hfound). injection Hfound as <-.
        cbn [In]. rewrite (IHrest more Hmore). split.
        -- intros [<-|H]; [now left | now right; right].
        -- intros [(_ & _ & ->)|[H|H]]; [now left | | now right].
           apply located_directory_only in H as [? ?]. discriminate.
      * rewrite (IHrest found Hfound). split; [now right; right|].
        intros [(_ & H & _)|[H|H]]; [contradiction | | exact H].
        apply located_directory_only in H as [? ?]. discriminate.
    + apply bind_Ok in Hfound as (below & Hbelow & Hfound).
      rewrite collect_frame in Hfound.
      apply bind_Ok in Hfound as (more & Hmore & Hfound). injection Hfound as <-.
      rewrite in_app_iff, (IHrest more Hmore), (Hstat _ below Hbelow). split.
      * intros [H|H]; [now right; left | now right; right].
      * intros [(H & _)|[H|H]]; [discriminate | now left | now right].
    + rewrite (IHrest found Hfound). split; [now right; right|].
      intros [(H & _)|[H|H]]; [discriminate | | exact H].
      apply located_directory_only in H as [? ?]. discriminate.
Qed.

(** The collector succeeds on a directory exactly when every [statSync] and
    every [readdirSync] below it succeeds. *)
Lemma collect_succeeds (here : fsnode) :
  forall dir files,
    match here with
    | RegularFile | OtherKind => True
    | _ =>
        (exists found,
            collectXmindFiles path_join path_extname dir here files = Ok found)
        <-> statable here = true
    end.
Proof.
  induction here as [|entries IH|e| |e] using fsnode_induction;
    intros dir files; try exact I;
    try (split; [intros [found H]; discriminate | discriminate]).
  revert files. induction IH as [|[item stat] rest Hstat _ IHrest]; intros files.
  - split; [reflexivity | now exists files].
  - rewrite collect_turn. simpl in Hstat.
    change (statable (Directory ((item, stat) :: rest)))
      with (statable stat && statable (Directory rest)).
    rewrite andb_true_iff.
    destruct stat as [|sub|e| |e].
    + destruct (String.eqb (path_extname item) ".xmind");
        rewrite IHrest; simpl; tauto.
    + specialize (Hstat (path_join [dir; item])). cbv beta iota in Hstat.
      split.
      * intros [found H]. apply bind_Ok in H as (below & Hbelow & H). split.
        -- apply (Hstat files). eauto.
        -- apply (IHrest below). eauto.
      * intros [Hsub Hrest]. apply (Hstat files) in Hsub as [below ->].
        cbn [bind]. now apply IHrest.
    + split.
      * intros [found H]. apply bind_Ok in H as (below & Hbelow & _). discriminate.
      * intros [H _]. discriminate.
    + rewrite IHrest. simpl. tauto.
    + split; [intros [found H]; discriminate | intros [H _]; discriminate].
Qed.

End CollectorFacts.

(** ** Properties of the file collector *)

(** X1.  The collector only appends to the list it is given: its result is
    that list followed by what it finds from an empty list, and it fails on
    exactly the same trees with the same exception. *)
Theorem collector_appends (path_join : list string -> string)
    (path_extname : string -> string)
    (dir : string) (here : fsnode) (files : list string) :
  collectXmindFiles path_join path_extname dir here files
  = (found <- collectXmindFiles path_join path_extname dir here [] ;;
     Ok (files ++ found)%list).
Proof. apply collect_frame. Qed.

(** X2.  When the collector succeeds, the paths it adds are exactly the
    regular files whose name has the extension [.xmind], at any depth below
    the directory: a directory or a special file with such a name is not
    listed, and no such file is missed. *)
Theorem collector_exact (path_join : list string -> string)
    (path_extname : string -> string)
    (dir : string) (here : fsnode) (files out : list string) :
  collectXmindFiles path_join path_extname dir here files = Ok out ->
  exists found,
    out = (files ++ found)%list /\
    forall p, In p found <-> located path_join path_extname dir here p.
Proof.
  intros H. rewrite collect_frame in H.
  apply bind_Ok in H as (found & Hfound & H). injection H as <-.
  exists found. split; [reflexivity|].
  now apply collect_exact.
Qed.

Lemma collector_exact_witness :
  collectXmindFiles sampleJoin sampleExtname "root" sampleTree ["old.xmind"]
  = Ok ["old.xmind"; "root/a.xmind"; "root/sub/b.xmind"] /\
  exists found,
    ["old.xmind"; "root/a.xmind"; "root/sub/b.xmind"] = (["old.xmind"] ++ found)%list /\
    forall p, In p found <-> located sampleJoin sampleExtname "root" sampleTree p.
Proof.
  split; [reflexivity|].
  apply (collector_exact sampleJoin sampleExtname "root" sampleTree
           ["old.xmind"] ["old.xmind"; "root/a.xmind"; "root/sub/b.xmind"]).
  reflexivity.
Defined.

(** X3.  On a directory the collector succeeds exactly when every
    [statSync] and every [readdirSync] below it succeeds: one entry that
    cannot be examined, at any depth, makes the whole collection fail. *)
Theorem collector_succeeds_iff (path_join : list string -> string)
    (path_extname : string -> string)
    (dir : string) (entries : list (string * fsnode)) (files : list string) :
  (exists found,
      collectXmindFiles path_join path_extname dir (Directory entries) files = Ok found)
  <-> statable (Directory entries) = true.
Proof.
  apply (collect_succeeds path_join path_extname (Directory entries) dir files).
Qed.

(** X13.  The entries of a directory are examined in the order of the
    listing, each subdirectory completely before the next entry: collecting
    a listing in two parts, the second from the result of the first, is
    collecting the whole listing. *)
Theorem collector_in_listing_order (path_join : list string -> string)
    (path_extname : string -> string)
    (dir : string) (before after : list (string * fsnode)) (files : list string) :
  collectXmindFiles path_join path_extname dir (Directory (before ++ after)) files
  = (files' <- collectXmindFiles path_join path_extname dir (Directory before) files ;;
     collectXmindFiles path_join path_extname dir (Directory after) files').
Proof.
  revert files. induction before as [|[item stat] before IH]; intros files.
  - reflexivity.
  - rewrite <- app_comm_cons, !collect_turn.
    destruct stat as [|sub|e| |e]; try reflexivity; try apply IH.
    + destruct (String.eqb (path_extname item) ".xmind"); apply IH.
    + rewrite bind_assoc. apply bind_ext. intros below _. apply IH.
Qed.

(** ** Properties of the selection *)

(** X4.  When the answer of the prompt contains "all", the files processed
    are all the collected files, in the order of collection, whatever else
    was ticked; otherwise they are the files of the answer.  (No collected
    path is "all".) *)
Theorem selection_all (path_relative : string -> string -> string)
    (rootDir : string) (xmindFiles answer : list string) :
  ~ In "all" xmindFiles ->
  (In "all" answer ->
   selectedFiles (filterSelection (choices path_relative rootDir xmindFiles) answer)
   = xmindFiles)
  /\ (~ In "all" answer ->
      selectedFiles (filterSelection (choices path_relative rootDir xmindFiles) answer)
      = answer).
Proof.
  intros Hfiles.
  assert (Hkeep : forall l : list string,
             ~ In "all" l ->
             filter (fun f => negb (String.eqb f "all")) l = l).
  { induction l as [|x l IH]; intros Hl; [reflexivity|]. simpl.
    destruct (String.eqb_spec x "all") as [->|Hx].
    - contradiction Hl. now left.
    - simpl. f_equal. apply IH. intros H. apply Hl. now right. }
  assert (Hin : forall l : list string,
             existsb (fun x => String.eqb x "all") l = true <-> In "all" l).
  { intros l. rewrite existsb_exists. split.
    - intros (x & Hx & Heq). apply String.eqb_eq in Heq. now subst.
    - intros H. exists "all". split; [exact H | reflexivity]. }
  unfold selectedFiles, filterSelection. split.
  - intros Hall. apply Hin in Hall. rewrite Hall.
    cbn [choices map choice_value filter String.eqb Ascii.eqb Bool.eqb negb andb].
    rewrite map_map. cbn [choice_value]. rewrite map_id. now apply Hkeep.
  - intros Hnone.
    destruct (existsb _ answer) eqn:E.
    + apply Hin in E. contradiction.
    + now apply Hkeep.
Qed.

Lemma selection_all_witness :
  ~ In "all" ["root/a.xmind"; "root/sub/b.xmind"] /\
  In "all" ["root/a.xmind"; "all"] /\
  selectedFiles
    (filterSelection
       (choices (fun _ file => file) "root" ["root/a.xmind"; "root/sub/b.xmind"])
       ["root/a.xmind"; "all"])
  = ["root/a.xmind"; "root/sub/b.xmind"].
Proof.
  assert (Hno : ~ In "all" ["root/a.xmind"; "root/sub/b.xmind"]).
  { intros [H|[H|[]]]; discriminate. }
  assert (Hall : In "all" ["root/a.xmind"; "all"]) by (right; now left).
  split; [exact Hno|]. split; [exact Hall|].
  apply (selection_all (fun _ file => file) "root"
           ["root/a.xmind"; "root/sub/b.xmind"] ["root/a.xmind"; "all"] Hno).
  exact Hall.
Defined.

(** ** Properties of the batch *)

Section BatchFacts.

Variable path_basename : string -> string -> string.
Variable path_join : list string -> string.
Variable dirname__ : string.
Variable statSize : string -> result Z.
Variable convert : string -> string -> value -> result unit.
Variable startTime : string -> Z.
Variable endTime : string -> Z.

(** What one file adds does not depend on what the other tasks have
    written. *)
Lemma processFile_adds (mode : value) (file : string) (shared : report) :
  processFile path_basename path_join dirname__ statSize convert startTime endTime
    mode file shared
  = let own := processFile path_basename path_join dirname__ statSize convert
                 startTime endTime mode file emptyReport in
    {| table := (table shared ++ table own)%list;
       errorMsgList := (errorMsgList shared ++ errorMsgList own)%list;
       progress := S (progress shared) |}.
Proof.
  unfold processFile. cbv zeta.
  destruct (statSize file) as [size|e]; cbn [bind].
  - destruct (convert file _ mode) as [u|e]; cbn [bind];
      cbn [table errorMsgList progress emptyReport app];
      now rewrite ?app_nil_r.
  - cbn [table errorMsgList progress emptyReport app]. reflexivity.
Qed.

Lemma processFile_own (mode : value) (file : string) :
  let own := processFile path_basename path_join dirname__ statSize convert
               startTime endTime mode file emptyReport in
  List.length (table own) = 1%nat /\
  List.length (errorMsgList own)
  = (if succeeds path_basename path_join dirname__ statSize convert mode file
     then 0 else 1)%nat.
Proof.
  unfold processFile, succeeds. cbv zeta.
  destruct (statSize file) as [size|e]; cbn [bind].
  - destruct (convert file _ mode) as [u|e]; cbn [bind]; split; reflexivity.
  - split; reflexivity.
Qed.

Lemma processAll_adds (mode : value) (finished : list string) :
  forall shared,
    processAll path_basename path_join dirname__ statSize convert startTime endTime
      mode finished shared
    = {| table :=
           (table shared ++
            flat_map (fun f => table (processFile path_basename path_join dirname__
                                        statSize convert startTime endTime
                                        mode f emptyReport)) finished)%list;
         errorMsgList :=
           (errorMsgList shared ++
            flat_map (fun f => errorMsgList (processFile path_basename path_join
                                               dirname__ statSize convert startTime
                                               endTime mode f emptyReport))
                     finished)%list;
         progress := (progress shared + List.length finished)%nat |}.
Proof.
  unfold processAll.
  induction finished as [|f rest IH]; intros shared; cbn [fold_left flat_map List.length].
  - rewrite !app_nil_r, Nat.add_0_r. now destruct shared.
  - rewrite IH, processFile_adds. cbv zeta. cbn [table errorMsgList progress].
    rewrite <- !app_assoc. f_equal. lia.
Qed.

Lemma failures_counted (mode : value) (files : list string) :
  List.length
    (flat_map (fun f => errorMsgList (processFile path_basename path_join dirname__
                                        statSize convert startTime endTime
                                        mode f emptyReport)) files)
  = List.length
      (filter (fun f => negb (succeeds path_basename path_join dirname__ statSize
                                convert mode f)) files).
Proof.
  induction files as [|f rest IH]; [reflexivity|].
  cbn [flat_map filter]. rewrite length_app, IH.
  destruct (processFile_own mode f) as [_ ->].
  now destruct (succeeds _ _ _ _ _ mode f).
Qed.

Lemma rows_counted (mode : value) (files : list string) :
  List.length
    (flat_map (fun f => table (processFile path_basename path_join dirname__
                                 statSize convert startTime endTime
                                 mode f emptyReport)) files)
  = List.length files.
Proof.
  induction files as [|f rest IH]; [reflexivity|].
  cbn [flat_map List.length]. rewrite length_app, IH.
  now destruct (processFile_own mode f) as [-> _].
Qed.

(** X5.  Failure isolation: after the tasks have finished, in whatever
    order, the table holds the rows of the files in that order, the list of
    messages holds the messages of the failed files, and each of them is
    what that file gives when processed alone; the progress bar has advanced
    once per file. *)
Theorem batch_composes (mode : value) (finished : list string) (shared : report) :
  processAll path_basename path_join dirname__ statSize convert startTime endTime
    mode finished shared
  = {| table :=
         (table shared ++
          flat_map (fun f => table (processFile path_basename path_join dirname__
                                      statSize convert startTime endTime
                                      mode f emptyReport)) finished)%list;
       errorMsgList :=
         (errorMsgList shared ++
          flat_map (fun f => errorMsgList (processFile path_basename path_join
                                             dirname__ statSize convert startTime
                                             endTime mode f emptyReport))
                   finished)%list;
       progress := (progress shared + List.length finished)%nat |}.
Proof. apply processAll_adds. Qed.

(** X6.  Whatever the order in which the tasks of the selected files
    finish: the progress bar reaches the number of selected files, the table
    has one row per selected file, and there is one message per file that
    failed, no more. *)
Theorem batch_totals (mode : value) (selected finished : list string) :
  Permutation finished selected ->
  let final := processAll path_basename path_join dirname__ statSize convert
                 startTime endTime mode finished emptyReport in
  progress final = List.length selected /\
  List.length (table final) = List.length selected /\
  List.length (errorMsgList final)
  = List.length
      (filter (fun f => negb (succeeds path_basename path_join dirname__ statSize
                                convert mode f)) selected) /\
  Permutation (table final)
    (flat_map (fun f => table (processFile path_basename path_join dirname__
                                 statSize convert startTime endTime
                                 mode f emptyReport)) selected).
Proof.
  intros Hperm. cbv zeta. rewrite processAll_adds.
  cbn [table errorMsgList progress emptyReport app Nat.add].
  split; [now apply Permutation_length|].
  split; [rewrite rows_counted; now apply Permutation_length|].
  split.
  - rewrite <- failures_counted. apply Permutation_length.
    now apply Permutation_flat_map.
  - now apply Permutation_flat_map.
Qed.

End BatchFacts.

Lemma batch_totals_witness :
  Permutation ["b.xmind"; "a.xmind"] ["a.xmind"; "b.xmind"] /\
  progress
    (processAll (fun path _ => path) sampleJoin "src"
       (fun path => if String.eqb path "a.xmind" then Ok 120 else Throw (Error "ENOENT"))
       (fun _ _ _ => Ok tt) (fun _ => 5) (fun _ => 9)
       (JString "list") ["b.xmind"; "a.xmind"] emptyReport)
  = 2%nat.
Proof.
  assert (Hp : Permutation ["b.xmind"; "a.xmind"] ["a.xmind"; "b.xmind"])
    by apply perm_swap.
  split; [exact Hp|].
  apply (batch_totals (fun path _ => path) sampleJoin "src"
           (fun path => if String.eqb path "a.xmind" then Ok 120 else Throw (Error "ENOENT"))
           (fun _ _ _ => Ok tt) (fun _ => 5) (fun _ => 9)
           (JString "list") ["a.xmind"; "b.xmind"] ["b.xmind"; "a.xmind"] Hp).
Defined.

(** ** Properties of the conversion of one file *)

Section ConversionFacts.

Variables (buffer archive entry : Type).
Variable readFileSync : string -> result buffer.
Variable loadAsync : buffer -> result archive.
Variable file : archive -> string -> option entry.
Variable async_string : entry -> result string.
Variable JSON_parse : string -> result value.
Variable path_dirname : string -> string.
Variable existsSync : string -> bool.
Variable mkdir_outcome : string -> bool -> result unit.
Variable write_outcome : string -> string -> result unit.

(** X7.  What a conversion calls that changes the file system.  Every call
    comes after the archive has been extracted and rendered: a call of
    [writeFileSync] is on [outputPath] with the rendered text, a call of
    [mkdirSync] is on the directory of [outputPath] with the recursive
    option, when [existsSync] has answered that it is missing.  No call
    follows a call that threw, a conversion that returns has written the
    file, and there are at most two calls. *)
Theorem writes_only_rendering (xmindPath outputPath : string) (mode : value)
    (calls : list fs_call) (outcome : result unit) :
  convertXmindFile readFileSync loadAsync file async_string JSON_parse
    path_dirname existsSync mkdir_outcome write_outcome xmindPath outputPath mode
  = (calls, outcome) ->
  (forall path text,
      In (WriteFileSync path text) calls ->
      path = outputPath /\
      exists content,
        readXmindContent readFileSync loadAsync file async_string JSON_parse
          xmindPath = Ok content /\
        xmindToMarkdown content mode = Ok text)
  /\ (forall dir recursive,
        In (MkdirSync dir recursive) calls ->
        dir = path_dirname outputPath /\ recursive = true /\
        existsSync dir = false /\
        exists content text,
          readXmindContent readFileSync loadAsync file async_string JSON_parse
            xmindPath = Ok content /\
          xmindToMarkdown content mode = Ok text)
  /\ (forall dir recursive e,
        In (MkdirSync dir recursive) calls ->
        mkdir_outcome dir recursive = Throw e ->
        outcome = Throw e /\ forall path text, ~ In (WriteFileSync path text) calls)
  /\ (outcome = Ok tt -> exists text, In (WriteFileSync outputPath text) calls)
  /\ (List.length calls <= 2)%nat.
Proof.
  unfold convertXmindFile. cbv zeta.
  destruct (readXmindContent _ _ _ _ _ xmindPath) as [content|e0];
    cbn [io_lift io_bind app].
  - rewrite xmindToMarkdown_default.
    destruct (xmindToMarkdown content mode) as [markdown|e1] eqn:Hrender;
      cbn [io_bind app].
    + unfold mkdirSync, writeFileSync, io_ret.
      destruct (existsSync (path_dirname outputPath)) eqn:Hexists;
        cbn [negb io_bind app].
      * intros H. injection H as <- <-.
        split; [|split; [|split; [|split]]].
        -- intros path text [H|[]]. injection H as <- <-.
           split; [reflexivity|]. now exists content.
        -- intros dir recursive [H|[]]. discriminate H.
        -- intros dir recursive e [H|[]]. discriminate H.
        -- intros _. exists markdown. now left.
        -- simpl. lia.
      * destruct (mkdir_outcome (path_dirname outputPath) true) as [u|e2] eqn:Hmk;
          intros H; injection H as <- <-;
          (split; [|split; [|split; [|split]]]).
        -- intros path text [H|[H|[]]]; [discriminate H|]. injection H as <- <-.
           split; [reflexivity|]. now exists content.
        -- intros dir recursive [H|[H|[]]]; [|discriminate H]. injection H as <- <-.
           repeat split; [exact Hexists|]. now exists content, markdown.
        -- intros dir recursive e [H|[H|[]]]; [|discriminate H]. injection H as <- <-.
           rewrite Hmk. discriminate.
        -- intros _. exists markdown. right. now left.
        -- simpl. lia.
        -- intros path text [H|[]]. discriminate H.
        -- intros dir recursive [H|[]]. injection H as <- <-.
           repeat split; [exact Hexists|]. now exists content, markdown.
        -- intros dir recursive e [H|[]]. injection H as <- <-.
           rewrite Hmk. intros He. injection He as ->.
           split; [reflexivity|]. intros path text [H|[]]. discriminate H.
        -- discriminate.
        -- simpl. lia.
    + intros H. injection H as <- <-.
      split; [|split; [|split; [|split]]];
        try (intros; contradiction); [discriminate | simpl; lia].
  - intros H. injection H as <- <-.
    split; [|split; [|split; [|split]]];
      try (intros; contradiction); [discriminate | simpl; lia].
Qed.

End ConversionFacts.

Lemma writes_only_rendering_witness :
  convertXmindFile sampleRead planLoad sampleFile sampleText planParse
    sampleDirname (fun _ => false) (fun _ _ => Ok tt) (fun _ _ => Ok tt)
    "a.xmind" "out/a.md" (JString "list")
  = ([MkdirSync "out" true;
      WriteFileSync "out/a.md" ("- Root" ++ nl ++ "  - A" ++ nl ++ "  - B" ++ nl)],
     Ok tt) /\
  (Ok tt = Ok tt ->
   exists text,
     In (WriteFileSync "out/a.md" text)
        [MkdirSync "out" true;
         WriteFileSync "out/a.md" ("- Root" ++ nl ++ "  - A" ++ nl ++ "  - B" ++ nl)]).
Proof.
  split; [vm_compute; reflexivity|].
  apply (writes_only_rendering unit (list (string * string)) string
           sampleRead planLoad sampleFile sampleText planParse
           sampleDirname (fun _ => false) (fun _ _ => Ok tt) (fun _ _ => Ok tt)
           "a.xmind" "out/a.md" (JString "list")
           [MkdirSync "out" true;
            WriteFileSync "out/a.md" ("- Root" ++ nl ++ "  - A" ++ nl ++ "  - B" ++ nl)]
           (Ok tt)).
  vm_compute. reflexivity.
Defined.

(** ** More properties of the renderer *)

(** X8.  In heading mode the levels from 6 on are one level: a node renders
    at any level of at least 6 as it does at level 6, so the nesting below
    the sixth level does not show in the output. *)
Theorem heading_depth_clamp (node : value) (level : Z) :
  6 <= level ->
  nodeToMarkdown node level (JString "heading")
  = nodeToMarkdown node 6 (JString "heading").
Proof. intros H. now apply nodeToMarkdown_calls_clamp. Qed.

Lemma heading_depth_clamp_witness :
  6 <= 9 /\
  nodeToMarkdown planRoot 9 (JString "heading")
  = nodeToMarkdown planRoot 6 (JString "heading").
Proof.
  split; [lia|]. apply (heading_depth_clamp planRoot 9). lia.
Defined.

(** X9.  The renderer raises the invalid-format error exactly on the values
    that are not a non-empty array: such a value always fails with it, and a
    non-empty array never does.  On a non-empty array the renderer returns a
    text or raises a [TypeError], nothing else (no [RangeError]: the levels
    it renders at are never negative). *)
Theorem renderer_failures (content mode : value) :
  (xmindToMarkdown content mode = Throw InvalidFormat
   <-> forall first rest, content <> JArray (first :: rest))
  /\ (forall e,
        xmindToMarkdown content mode = Throw e ->
        e = InvalidFormat \/
        (is_TypeError e /\ exists first rest, content = JArray (first :: rest))).
Proof.
  assert (Harray : forall first rest e,
             xmindToMarkdown (JArray (first :: rest)) mode = Throw e ->
             is_TypeError e).
  { intros first rest e. unfold xmindToMarkdown. cbn [List.length Nat.eqb].
    apply for_of_Throw with (Q := fun _ => True); [now apply Forall_forall|].
    intros i s e' _. apply sheetIteration_TypeError. }
  split; [split|].
  - intros H first rest ->. apply Harray in H as [m Hm]. discriminate Hm.
  - intros Hshape. unfold xmindToMarkdown.
    destruct content as [| |b|n|s|items|props]; try reflexivity.
    destruct items as [|first rest]; [reflexivity|].
    now contradiction (Hshape first rest).
  - intros e H.
    destruct content as [| |b|n|s|items|props];
      try (left; now injection H as <-).
    destruct items as [|first rest]; [left; now injection H as <-|].
    right. split; [now apply (Harray first rest) | now exists first, rest].
Qed.

Lemma renderer_failures_witness :
  xmindToMarkdown (JArray [JNull]) JUndefined
  = Throw (TypeError "Cannot read properties of null (reading 'rootTopic')") /\
  (TypeError "Cannot read properties of null (reading 'rootTopic')" = InvalidFormat
   \/ (is_TypeError (TypeError "Cannot read properties of null (reading 'rootTopic')") /\
       exists first rest, JArray [JNull] = JArray (first :: rest))).
Proof.
  split; [reflexivity|].
  apply (proj2 (renderer_failures (JArray [JNull]) JUndefined)
           (TypeError "Cannot read properties of null (reading 'rootTopic')") eq_refl).
Defined.

(** X11.  A node is rendered from its [title] and [children] properties
    alone: two objects that agree on these two render alike, whatever other
    properties (identifiers, styles, markers, notes) they carry. *)
Theorem unread_properties_ignored (props1 props2 : list (string * value))
    (level : Z) (mode : value) :
  Js.own_prop props1 "title" = Js.own_prop props2 "title" ->
  Js.own_prop props1 "children" = Js.own_prop props2 "children" ->
  nodeToMarkdown (JObject props1) level mode
  = nodeToMarkdown (JObject props2) level mode.
Proof.
  intros Htitle Hchildren. rewrite !nodeToMarkdown_unfold.
  unfold nodeToMarkdown_body, getNodeTitle.
  cbn [Js.truthy negb Js.get Js.field_name].
  now rewrite Htitle, Hchildren.
Qed.

Lemma unread_properties_ignored_witness :
  nodeToMarkdown
    (JObject [("id", JString "7f3a"); ("title", JString "A");
              ("style", JObject [("color", JString "red")])])
    2 (JString "list")
  = nodeToMarkdown (JObject [("title", JString "A")]) 2 (JString "list").
Proof.
  apply (unread_properties_ignored
           [("id", JString "7f3a"); ("title", JString "A");
            ("style", JObject [("color", JString "red")])]
           [("title", JString "A")] 2 (JString "list")); reflexivity.
Defined.

(** X12.  The children that are [null], [false], zero or the empty string
    are skipped: a node renders as it does without them. *)
Theorem falsy_children_skipped (t : value) (items : list value)
    (level : Z) (mode : value) :
  nodeToMarkdown (topicOf t items) level mode
  = nodeToMarkdown (topicOf t (filter Js.truthy items)) level mode.
Proof.
  rewrite !nodeToMarkdown_unfold, !nodeToMarkdown_body_children. cbv zeta.
  change (nodeChildren (topicOf t items)) with (@Ok (list value) items).
  change (nodeChildren (topicOf t (filter Js.truthy items)))
    with (@Ok (list value) (filter Js.truthy items)).
  change (getNodeTitle (topicOf t (filter Js.truthy items)))
    with (getNodeTitle (topicOf t items)).
  cbn [Js.truthy negb topicOf].
  apply bind_ext. intros title _. apply bind_ext. intros md _. cbn [bind].
  apply (for_of_truthy
           (fun child => nodeToMarkdown child (level + 1)
                           (Js.default_arg mode (JString "heading")))).
  intros x Hx. now apply nodeToMarkdown_falsy.
Qed.
